(** * FHL Bible chatbot: tool-use orchestration, history retention, turn log

    A shallow embedding of [src/mcp_client.py] (class [FHLBibleClient]) and
    [src/chatbot.py] (classes [ConversationLogger] and [BibleChatbot]).

    Python objects become records, and a method that mutates [self] becomes a
    function returning the new object.  A call that may raise returns a
    [result].  The three collaborators the code talks to (the MCP tool
    server, the language-model endpoint and the file system) are oracles
    stored inside the object that owns the connection, indexed by the number
    of requests already made, so that two identical requests may be answered
    differently.  Wall-clock measurements ([time.time()], the [timing] dict,
    timestamps) and [print] calls carry no information used below and are
    left out. *)

From Stdlib Require Import String Ascii ZArith List Permutation Sorted Lia.
From stdpp Require Import base list.
Import ListNotations.

Local Open Scope string_scope.

(** ** Python values shared by both modules *)

(** The exceptions the code raises or lets through; [str(e)] is the message. *)
Inductive exn : Type :=
| RuntimeError (msg : string)
| FileNotFoundError (msg : string)
| RemoteError (msg : string)      (* raised inside the MCP session *)
| APIError (msg : string)         (* raised by [client.messages.create] *)
| OSError (msg : string).         (* raised by [open] / [json.dump] *)

Definition str (e : exn) : string :=
  match e with
  | RuntimeError m | FileNotFoundError m | RemoteError m
  | APIError m | OSError m => m
  end.

Inductive result (A : Type) : Type :=
| Ok (a : A)
| Raise (e : exn).
Arguments Ok {A} a.
Arguments Raise {A} e.

(** A tool's [input]: a loosely typed key/value mapping, passed through
    untouched; values are kept as their JSON text. *)
Definition Args : Type := list (string * string).

Definition newline : string := String (ascii_of_nat 10) EmptyString.

(** [sep.join(parts)] *)
Definition join (sep : string) (parts : list string) : string :=
  String.concat sep parts.

(** ** mcp_client.py *)

Module MCP.

(** A content block of a [CallToolResult]: only [TextContent] has a [text]
    attribute. *)
Inductive Content : Type :=
| TextContent (text : string)
| ImageContent (data : string)
| EmbeddedResource (uri : string).

(** [hasattr(c, 'text')] together with [c.text]. *)
Definition text_of (c : Content) : option string :=
  match c with
  | TextContent t => Some t
  | _ => None
  end.

(** A tool as listed by the server ([tools_response.tools]). *)
Record Tool : Type := mkTool {
  tool_name : string;
  tool_description : option string;
  tool_inputSchema : string
}.

(** The dict built for the model: name, description, input_schema. *)
Record ToolEntry : Type := mkToolEntry {
  name : string;
  description : option string;
  input_schema : string
}.

(** A live [ClientSession].  [request_id] counts the requests sent so far;
    the server's answer to request number [n], and the time it takes to
    arrive, are given by [respond n] and [latency n]. *)
Record ClientSession : Type := mkSession {
  request_id : nat;
  respond : nat -> string -> Args -> result (list Content);
  latency : nat -> nat
}.

(** What [connect] finds on the other side. *)
Record Server : Type := mkServer {
  venv_python_exists : bool;
  initialize : result unit;
  list_tools : result (list Tool);
  fresh_session : ClientSession
}.

Record FHLBibleClient : Type := mkClient {
  session : option ClientSession;
  _tools : list ToolEntry
}.

(** [__init__] *)
Definition init : FHLBibleClient :=
  {| session := None; _tools := [] |}.

(** [_get_server_params]: raises when neither interpreter path exists. *)
Definition _get_server_params (srv : Server) : result unit :=
  if venv_python_exists srv then Ok tt
  else Raise (FileNotFoundError "Python not found in FHL-MCP-Server venv.").

Definition entry_of_tool (t : Tool) : ToolEntry :=
  {| name := tool_name t;
     description := tool_description t;
     input_schema := tool_inputSchema t |}.

(** [connect], up to the [yield]: handshake, store the session, cache the
    catalog.  [self.session] is assigned before the catalog is fetched, so
    a failing [list_tools] leaves it set. *)
Definition connect_enter (c : FHLBibleClient) (srv : Server)
  : FHLBibleClient * result unit :=
  match _get_server_params srv with
  | Raise e => (c, Raise e)
  | Ok _ =>
    match initialize srv with
    | Raise e => (c, Raise e)
    | Ok _ =>
      let c1 := {| session := Some (fresh_session srv); _tools := _tools c |} in
      match list_tools srv with
      | Raise e => (c1, Raise e)
      | Ok tools =>
          ({| session := session c1; _tools := map entry_of_tool tools |},
           Ok tt)
      end
    end
  end.

(** [connect], after the [yield] when the body ended normally. *)
Definition connect_exit (c : FHLBibleClient) : FHLBibleClient :=
  {| session := None; _tools := _tools c |}.

(** The [tools] property. *)
Definition tools (c : FHLBibleClient) : result (list ToolEntry) :=
  Ok (_tools c).

(** [get_tools_for_claude]: a fresh dict per cached entry, same three keys. *)
Definition get_tools_for_claude (c : FHLBibleClient) : result (list ToolEntry) :=
  Ok (map (fun tool =>
             {| name := name tool;
                description := description tool;
                input_schema := input_schema tool |}) (_tools c)).

(** The text extraction at the end of [call_tool] (and of
    [read_resource]). *)
Definition extract_text (content : list Content) : string :=
  match content with
  | [] => ""
  | _ => join newline (omap text_of content)
  end.

(** [await self.session.call_tool(name, arguments)]: the request is
    numbered, the session moves on to the next number. *)
Definition session_call_tool (s : ClientSession) (nm : string) (arguments : Args)
  : ClientSession * result (list Content) :=
  ({| request_id := S (request_id s);
      respond := respond s;
      latency := latency s |},
   respond s (request_id s) nm arguments).

Definition not_connected : exn :=
  RuntimeError "Not connected. Use 'async with client.connect():'".

(** [call_tool] *)
Definition call_tool (c : FHLBibleClient) (nm : string) (arguments : Args)
  : FHLBibleClient * result string :=
  match session c with
  | None => (c, Raise not_connected)
  | Some s =>
      let '(s', r) := session_call_tool s nm arguments in
      ({| session := Some s'; _tools := _tools c |},
       match r with
       | Raise e => Raise e
       | Ok content => Ok (extract_text content)
       end)
  end.

End MCP.

(** ** chatbot.py *)

Module Chatbot.

Import MCP.

(** *** The language-model endpoint *)

(** A block of [response.content].  Only [TextBlock] has a [text]
    attribute; only [ToolUseBlock] has [type == "tool_use"]. *)
Inductive ContentBlock : Type :=
| TextBlock (text : string)
| ToolUseBlock (id : string) (nm : string) (input : Args)
| OtherBlock (type : string).

(** The three fields [execute_tool] reads from a tool-use block. *)
Record ToolUse : Type := mkToolUse {
  tu_id : string;
  tu_name : string;
  tu_input : Args
}.

Definition as_tool_use (b : ContentBlock) : option ToolUse :=
  match b with
  | ToolUseBlock i n a => Some {| tu_id := i; tu_name := n; tu_input := a |}
  | _ => None
  end.

Definition block_text (b : ContentBlock) : option string :=
  match b with
  | TextBlock t => Some t
  | _ => None
  end.

Record Response : Type := mkResponse {
  stop_reason : string;
  resp_content : list ContentBlock
}.

(** The dict returned by [execute_tool].  The success dict has no
    ["is_error"] key, which the endpoint reads as false. *)
Record ToolResult : Type := mkToolResult {
  tr_type : string;
  tr_tool_use_id : string;
  tr_content : string;
  tr_is_error : bool
}.

(** The three shapes of a history entry's ["content"]. *)
Inductive MessageContent : Type :=
| Text (s : string)
| Blocks (bs : list ContentBlock)
| ToolResults (rs : list ToolResult).

Record Message : Type := mkMessage {
  role : string;
  content : MessageContent
}.

(** The [Anthropic] client.  [create n tools messages] is the endpoint's
    answer to call number [n]; [requests] keeps, oldest first, the
    [messages] argument of every call made. *)
Record Anthropic : Type := mkAnthropic {
  api_calls : nat;
  create : nat -> list ToolEntry -> list Message -> result Response;
  requests : list (list Message)
}.

(** *** ConversationLogger *)

Record ToolCallInfo : Type := mkToolCallInfo {
  tci_name : string;
  tci_input : Args;
  tci_id : string
}.

Record ToolResultInfo : Type := mkToolResultInfo {
  tri_tool_name : string;
  tri_tool_use_id : string;
  tri_is_error : bool;
  tri_result_length : option nat;
  tri_error : option string
}.

Record LogEntry : Type := mkLogEntry {
  le_user_message : string;
  le_assistant_response : string;
  le_tool_calls : list ToolCallInfo;
  le_tool_results : list ToolResultInfo;
  le_error : option string
}.

(** [conversations] is the list held in memory; [log_file_json] is what the
    last successful [json.dump] wrote, [log_file_text] the turns appended to
    the text file.  Opening a file is attempt number [fs_ops] on the file
    system and succeeds when [fs_ok] says so. *)
Record ConversationLogger : Type := mkLogger {
  format : string;
  conversations : list LogEntry;
  log_file_json : list LogEntry;
  log_file_text : list LogEntry;
  fs_ops : nat;
  fs_ok : nat -> bool
}.

Definition format_in (f : string) (choices : list string) : bool :=
  existsb (String.eqb f) choices.

(** [with open(...) as f: ...]: one attempt on the file system. *)
Definition open_file (lg : ConversationLogger) : ConversationLogger * result unit :=
  let lg' := {| format := format lg; conversations := conversations lg;
                log_file_json := log_file_json lg;
                log_file_text := log_file_text lg;
                fs_ops := S (fs_ops lg); fs_ok := fs_ok lg |} in
  if fs_ok lg (fs_ops lg) then (lg', Ok tt)
  else (lg', Raise (OSError "cannot open log file")).

(** [log_message] *)
Definition log_message (lg : ConversationLogger)
    (user_message assistant_response : string)
    (tool_calls : list ToolCallInfo) (tool_results : list ToolResultInfo)
    (error : option string) : ConversationLogger * result unit :=
  let entry := {| le_user_message := user_message;
                  le_assistant_response := assistant_response;
                  le_tool_calls := tool_calls;
                  le_tool_results := tool_results;
                  le_error := error |} in
  let lg1 := {| format := format lg;
                conversations := conversations lg ++ [entry];
                log_file_json := log_file_json lg;
                log_file_text := log_file_text lg;
                fs_ops := fs_ops lg; fs_ok := fs_ok lg |} in
  let '(lg2, r2) :=
    if format_in (format lg1) ["json"; "both"] then
      let '(l, r) := open_file lg1 in
      match r with
      | Raise e => (l, Raise e)
      | Ok _ => ({| format := format l; conversations := conversations l;
                    log_file_json := conversations l;
                    log_file_text := log_file_text l;
                    fs_ops := fs_ops l; fs_ok := fs_ok l |}, Ok tt)
      end
    else (lg1, Ok tt) in
  match r2 with
  | Raise e => (lg2, Raise e)
  | Ok _ =>
    if format_in (format lg2) ["text"; "both"] then
      let '(l, r) := open_file lg2 in
      match r with
      | Raise e => (l, Raise e)
      | Ok _ => ({| format := format l; conversations := conversations l;
                    log_file_json := log_file_json l;
                    log_file_text := log_file_text l ++ [entry];
                    fs_ops := fs_ops l; fs_ok := fs_ok l |}, Ok tt)
      end
    else (lg2, Ok tt)
  end.

(** *** BibleChatbot *)

Record BibleChatbot : Type := mkBot {
  client : Anthropic;
  mcp_client : FHLBibleClient;
  conversation_history : list Message;
  max_history : Z;
  logger : option ConversationLogger;
  current_tool_calls : list ToolCallInfo;
  current_tool_results : list ToolResultInfo
}.

(** Field assignments on [self]. *)
Definition set_client (a : Anthropic) (b : BibleChatbot) : BibleChatbot :=
  mkBot a (mcp_client b) (conversation_history b) (max_history b) (logger b)
        (current_tool_calls b) (current_tool_results b).
Definition set_mcp_client (c : FHLBibleClient) (b : BibleChatbot) : BibleChatbot :=
  mkBot (client b) c (conversation_history b) (max_history b) (logger b)
        (current_tool_calls b) (current_tool_results b).
Definition set_history (h : list Message) (b : BibleChatbot) : BibleChatbot :=
  mkBot (client b) (mcp_client b) h (max_history b) (logger b)
        (current_tool_calls b) (current_tool_results b).
Definition set_logger (l : option ConversationLogger) (b : BibleChatbot) : BibleChatbot :=
  mkBot (client b) (mcp_client b) (conversation_history b) (max_history b) l
        (current_tool_calls b) (current_tool_results b).
Definition set_tool_calls (l : list ToolCallInfo) (b : BibleChatbot) : BibleChatbot :=
  mkBot (client b) (mcp_client b) (conversation_history b) (max_history b)
        (logger b) l (current_tool_results b).
Definition set_tool_results (l : list ToolResultInfo) (b : BibleChatbot) : BibleChatbot :=
  mkBot (client b) (mcp_client b) (conversation_history b) (max_history b)
        (logger b) (current_tool_calls b) l.

(** [self.conversation_history.append(m)] *)
Definition history_append (m : Message) (b : BibleChatbot) : BibleChatbot :=
  set_history (conversation_history b ++ [m]) b.

(** The Python slice [l[start:]]: a negative [start] counts from the end,
    and the bounds are clamped to the list. *)
Definition slice_from {A : Type} (l : list A) (start : Z) : list A :=
  let len := Z.of_nat (length l) in
  let lo := if (start <? 0)%Z then Z.max (len + start) 0 else Z.min start len in
  drop (Z.to_nat lo) l.

(** The list operation inside [_prune_history]. *)
Definition prune (max_turns : Z) (h : list Message) : list Message :=
  if ((0 <? max_turns) && (max_turns <? Z.of_nat (length h)))%Z
  then slice_from h (- max_turns)
  else h.

(** [_prune_history] *)
Definition _prune_history (b : BibleChatbot) : BibleChatbot :=
  set_history (prune (max_history b) (conversation_history b)) b.

(** [clear_history] *)
Definition clear_history (b : BibleChatbot) : BibleChatbot :=
  set_history [] b.

(** [self.client.messages.create(..., tools=tools,
    messages=self.conversation_history)]; the model name, token limit and
    system prompt are constants of the call. *)
Definition messages_create (b : BibleChatbot) (tools : list ToolEntry)
  : BibleChatbot * result Response :=
  let a := client b in
  (set_client {| api_calls := S (api_calls a);
                 create := create a;
                 requests := requests a ++ [conversation_history b] |} b,
   create a (api_calls a) tools (conversation_history b)).

(** *** execute_tool and asyncio.gather

    [execute_tool] has one suspension point, the [await] inside
    [call_tool].  A coroutine started by [gather] runs up to that point
    ([execute_tool_start]); when the answer arrives it runs the rest
    ([execute_tool_resume]).  Without a session [call_tool] raises before
    suspending and the coroutine finishes in its first step. *)

Definition tool_call_info (tc : ToolUse) : ToolCallInfo :=
  {| tci_name := tu_name tc; tci_input := tu_input tc; tci_id := tu_id tc |}.

(** The entry appended to [self.current_tool_results], in the [try] body
    and in the [except Exception] handler. *)
Definition tool_result_info (tc : ToolUse) (r : result string) : ToolResultInfo :=
  match r with
  | Ok res =>
      {| tri_tool_name := tu_name tc;
         tri_tool_use_id := tu_id tc;
         tri_is_error := false;
         tri_result_length := Some (String.length res);
         tri_error := None |}
  | Raise e =>
      {| tri_tool_name := tu_name tc;
         tri_tool_use_id := tu_id tc;
         tri_is_error := true;
         tri_result_length := None;
         tri_error := Some (str e) |}
  end.

(** The dict [execute_tool] returns, in the [try] body and in the
    handler. *)
Definition tool_result (tc : ToolUse) (r : result string) : ToolResult :=
  match r with
  | Ok res =>
      {| tr_type := "tool_result";
         tr_tool_use_id := tu_id tc;
         tr_content := res;
         tr_is_error := false |}
  | Raise e =>
      {| tr_type := "tool_result";
         tr_tool_use_id := tu_id tc;
         tr_content := "Error: " ++ str e;
         tr_is_error := true |}
  end.

(** The code after the [await]: log the outcome, return the dict. *)
Definition execute_tool_resume (b : BibleChatbot) (tc : ToolUse) (r : result string)
  : BibleChatbot * ToolResult :=
  (set_tool_results (current_tool_results b ++ [tool_result_info tc r]) b,
   tool_result tc r).

(** A coroutine suspended in its [await]: its position in the batch, its
    request, the time the answer takes and the answer. *)
Record Waiting : Type := mkWaiting {
  w_index : nat;
  w_call : ToolUse;
  w_latency : nat;
  w_answer : result string
}.

(** The first step of coroutine number [i]: record the request, send it. *)
Definition execute_tool_start (b : BibleChatbot) (i : nat) (tc : ToolUse)
  : BibleChatbot * (ToolResult + Waiting) :=
  let b1 := set_tool_calls (current_tool_calls b ++ [tool_call_info tc]) b in
  let '(c, r) := call_tool (mcp_client b1) (tu_name tc) (tu_input tc) in
  match session (mcp_client b1) with
  | None =>
      let '(b2, res) := execute_tool_resume (set_mcp_client c b1) tc r in
      (b2, inl res)
  | Some s =>
      (set_mcp_client c b1,
       inr {| w_index := i; w_call := tc;
              w_latency := latency s (request_id s); w_answer := r |})
  end.

(** The result slots of the tasks of one [gather]. *)
Abbreviation Slots := (list (option ToolResult)).

(** The tasks take their first step in the order they were created. *)
Fixpoint start_all (b : BibleChatbot) (i : nat) (calls : list ToolUse)
    (slots : Slots) : BibleChatbot * Slots * list Waiting :=
  match calls with
  | [] => (b, slots, [])
  | tc :: rest =>
      let '(b1, t) := execute_tool_start b i tc in
      match t with
      | inl res =>
          start_all b1 (S i) rest (<[i := Some res]> slots)
      | inr w =>
          let '(b2, slots2, ws) := start_all b1 (S i) rest slots in
          (b2, slots2, w :: ws)
      end
  end.

(** Answers arrive by increasing latency; among equal latencies the
    earlier request first. *)
Fixpoint insert_by_latency (w : Waiting) (ws : list Waiting) : list Waiting :=
  match ws with
  | [] => [w]
  | v :: ws' =>
      if (w_latency w <=? w_latency v)%nat then w :: v :: ws'
      else v :: insert_by_latency w ws'
  end.

Definition completion_order (ws : list Waiting) : list Waiting :=
  foldr insert_by_latency [] ws.

(** Each arriving answer resumes its coroutine, whose return value goes
    into its own slot. *)
Fixpoint finish_all (b : BibleChatbot) (slots : Slots) (order : list Waiting)
  : BibleChatbot * Slots :=
  match order with
  | [] => (b, slots)
  | w :: rest =>
      let '(b1, res) := execute_tool_resume b (w_call w) (w_answer w) in
      finish_all b1 (<[w_index w := Some res]> slots) rest
  end.

(** [gather] returns once every slot is filled, with the slots in order. *)
Fixpoint all_settled (slots : Slots) : option (list ToolResult) :=
  match slots with
  | [] => Some []
  | None :: _ => None
  | Some r :: rest =>
      match all_settled rest with
      | Some rs => Some (r :: rs)
      | None => None
      end
  end.

(** [await asyncio.gather(...)] over [execute_tool(tc) for tc in
    tool_calls]; [None] stands for a [gather] that never returns. *)
Definition gather (b : BibleChatbot) (tool_calls : list ToolUse)
  : BibleChatbot * option (list ToolResult) :=
  let '(b1, slots1, ws) :=
    start_all b 0 tool_calls (replicate (length tool_calls) None) in
  let '(b2, slots2) := finish_all b1 slots1 (completion_order ws) in
  (b2, all_settled slots2).

(** *** chat *)

(** How a call of [chat] ends: it returns the answer, it raises, or it is
    still running when the fuel given to the [while] loop is spent. *)
Inductive Outcome : Type :=
| Returned (text : string)
| Raised (e : exn)
| Unfinished.

(** [[block for block in response.content if block.type == "tool_use"]] *)
Definition tool_use_blocks (content : list ContentBlock) : list ToolUse :=
  omap as_tool_use content.

(** The [while response.stop_reason == "tool_use"] loop; one unit of fuel
    per iteration.  It ends with the first response that is not a tool
    request, or with the exception of a failed model call. *)
Fixpoint tool_use_loop (fuel : nat) (b : BibleChatbot) (tools : list ToolEntry)
    (response : Response) : BibleChatbot * option (result Response) :=
  if String.eqb (stop_reason response) "tool_use" then
    match fuel with
    | O => (b, None)
    | S fuel' =>
        let tool_calls := tool_use_blocks (resp_content response) in
        let b1 := history_append
                    {| role := "assistant";
                       content := Blocks (resp_content response) |} b in
        let b2 := set_tool_results [] (set_tool_calls [] b1) in
        let '(b3, gathered) := gather b2 tool_calls in
        match gathered with
        | None => (b3, None)
        | Some tool_results =>
            let b4 := history_append
                        {| role := "user";
                           content := ToolResults tool_results |} b3 in
            let '(b5, r) := messages_create b4 tools in
            match r with
            | Raise e => (b5, Some (Raise e))
            | Ok response' => tool_use_loop fuel' b5 tools response'
            end
        end
    end
  else (b, Some (Ok response)).

(** The final text: the [text] of every block that has one, appended in
    order. *)
Definition final_text_of (content : list ContentBlock) : string :=
  fold_left (fun acc block =>
               match block_text block with
               | Some t => acc ++ t
               | None => acc
               end) content "".

(** [chat], first part: the user turn, the pruning pass, the catalog, the
    initial model call and the tool-use loop.  It yields the model's final
    response, or the exception that ended the turn. *)
Definition dialogue (fuel : nat) (b : BibleChatbot) (user_message : string)
  : BibleChatbot * option (result Response) :=
  let b1 := history_append {| role := "user"; content := Text user_message |} b in
  let b2 := _prune_history b1 in
  match get_tools_for_claude (mcp_client b2) with
  | Raise e => (b2, Some (Raise e))
  | Ok tools =>
    let '(b3, r) := messages_create b2 tools in
    match r with
    | Raise e => (b3, Some (Raise e))
    | Ok response => tool_use_loop fuel b3 tools response
    end
  end.

(** [chat], second part: extract the final text, append it to the history,
    log the turn, return the text. *)
Definition conclude (b : BibleChatbot) (user_message : string) (last : Response)
  : BibleChatbot * Outcome :=
  let final_text := final_text_of (resp_content last) in
  let b5 := history_append
              {| role := "assistant"; content := Text final_text |} b in
  match logger b5 with
  | None => (b5, Returned final_text)
  | Some lg =>
      let '(lg', w) :=
        log_message lg user_message final_text
                    (current_tool_calls b5) (current_tool_results b5)
                    None in
      let b6 := set_logger (Some lg') b5 in
      match w with
      | Raise e => (b6, Raised e)
      | Ok _ => (b6, Returned final_text)
      end
  end.

(** [chat] *)
Definition chat (fuel : nat) (b : BibleChatbot) (user_message : string)
  : BibleChatbot * Outcome :=
  let '(b4, looped) := dialogue fuel b user_message in
  match looped with
  | None => (b4, Unfinished)
  | Some (Raise e) => (b4, Raised e)
  | Some (Ok last) => conclude b4 user_message last
  end.

(** [__init__]: a new endpoint client (behaving as [endpoint]), empty
    history, empty per-turn lists. *)
Definition init
    (endpoint : nat -> list ToolEntry -> list Message -> result Response)
    (c : FHLBibleClient) (max_history : Z)
    (lg : option ConversationLogger) : BibleChatbot :=
  mkBot {| api_calls := 0; create := endpoint; requests := [] |}
        c [] max_history lg [] [].

(** What a caller may do with a chatbot between two turns. *)
Inductive Command : Type :=
| Say (user_message : string)
| Clear
| Connect (srv : Server)
| Disconnect.

(** A caller that goes on whatever the previous command did. *)
Definition step (fuel : nat) (b : BibleChatbot) (cmd : Command) : BibleChatbot :=
  match cmd with
  | Say m => fst (chat fuel b m)
  | Clear => clear_history b
  | Connect srv => set_mcp_client (fst (connect_enter (mcp_client b) srv)) b
  | Disconnect => set_mcp_client (connect_exit (mcp_client b)) b
  end.

Definition run (fuel : nat) (b : BibleChatbot) (cmds : list Command) : BibleChatbot :=
  fold_left (step fuel) cmds b.

(** *** Shape of a transcript *)

(** The call identities an assistant turn issues. *)
Definition issued_ids (m : Message) : list string :=
  match content m with
  | Blocks bs =>
      if String.eqb (role m) "assistant"
      then map tu_id (tool_use_blocks bs) else []
  | _ => []
  end.

(** [m] is a tool-result batch with a result for every identity in [ids]. *)
Definition answers (ids : list string) (m : Message) : bool :=
  match content m with
  | ToolResults rs =>
      String.eqb (role m) "user" &&
      forallb (fun i => existsb (fun r => String.eqb (tr_tool_use_id r) i) rs) ids
  | _ => false
  end.

(** Every assistant turn that issues tool calls is directly followed by a
    batch that answers all of them. *)
Fixpoint paired (h : list Message) : bool :=
  match h with
  | [] => true
  | m :: rest =>
      match issued_ids m with
      | [] => true
      | ids => match rest with
               | m' :: _ => answers ids m'
               | [] => false
               end
      end && paired rest
  end.

End Chatbot.

(** ** Notions used to state the properties *)

Module Notions.

Import MCP Chatbot.
Local Open Scope list_scope.

(** What [gather] leaves untouched. *)
Definition same_conversation (b b' : BibleChatbot) : Prop :=
  conversation_history b' = conversation_history b /\
  client b' = client b /\
  logger b' = logger b /\
  max_history b' = max_history b.

(** The answer [call_tool] gives to the request of [tc] when [k] requests
    of the same batch were sent before it. *)
Definition kth_answer (c : FHLBibleClient) (k : nat) (tc : ToolUse) : result string :=
  match session c with
  | None => Raise not_connected
  | Some s =>
      match respond s (request_id s + k) (tu_name tc) (tu_input tc) with
      | Raise e => Raise e
      | Ok content => Ok (extract_text content)
      end
  end.

(** The batch [gather] is expected to return: the result of every request,
    in request order. *)
Definition batch_results (c : FHLBibleClient) (calls : list ToolUse) : list ToolResult :=
  imap (fun k tc => tool_result tc (kth_answer c k tc)) calls.

(** The slots filled so far hold the expected results. *)
Definition consistent (expected : list ToolResult) (slots : Slots) : Prop :=
  length slots = length expected /\
  forall k r, slots !! k = Some (Some r) -> expected !! k = Some r.

(** Task [k] has returned. *)
Definition filled (slots : Slots) (k : nat) : Prop :=
  exists r, slots !! k = Some (Some r).

(** The suspended coroutine [w] will return the expected result of its
    position. *)
Definition good (expected : list ToolResult) (w : Waiting) : Prop :=
  expected !! w_index w = Some (tool_result (w_call w) (w_answer w)).

(** The same chatbot talking to a tool server whose answers take the times
    given by [lat]. *)
Definition with_latency (lat : nat -> nat) (b : BibleChatbot) : BibleChatbot :=
  set_mcp_client
    {| session := option_map
                    (fun s => {| request_id := request_id s;
                                 respond := respond s;
                                 latency := lat |})
                    (session (mcp_client b));
       _tools := _tools (mcp_client b) |} b.

(** What the loop does once the batch is in the history: call the model
    again, then go on with its answer. *)
Definition continue_with (fuel : nat) (tools : list ToolEntry)
    (called : BibleChatbot * result Response)
  : BibleChatbot * option (result Response) :=
  let '(b5, r) := called in
  match r with
  | Raise e => (b5, Some (Raise e))
  | Ok response' => tool_use_loop fuel b5 tools response'
  end.

Definition assistant_turn (response : Response) : Message :=
  {| role := "assistant"; content := Blocks (resp_content response) |}.

Definition result_turn (rs : list ToolResult) : Message :=
  {| role := "user"; content := ToolResults rs |}.

(** The history is well paired, and so was every transcript sent so far. *)
Definition settled (b : BibleChatbot) : Prop :=
  paired (conversation_history b) = true /\
  Forall (fun t => paired t = true) (requests (client b)).

(** Successive transcripts, each the previous one plus an assistant turn
    and a batch of results. *)
Fixpoint chain (h : list Message) (ts : list (list Message)) : Prop :=
  match ts with
  | [] => True
  | t :: ts' =>
      (exists response rs,
         t = h ++ [assistant_turn response; result_turn rs]) /\
      chain t ts'
  end.

(** The call identities issued by the assistant turns of a history. *)
Definition issued_in (h : list Message) : list string :=
  flat_map issued_ids h.

End Notions.

(** ** A worked session *)

Module Scenario.

Import MCP Chatbot.

(** A server used in the examples: it answers every request with two text
    blocks around an image. *)
Definition two_texts : ClientSession :=
  {| request_id := 0;
     respond := fun _ _ _ =>
       Ok [TextContent "In the beginning"; ImageContent "png";
           TextContent "was the Word"];
     latency := fun _ => 0 |}.

Definition connected : FHLBibleClient :=
  {| session := Some two_texts; _tools := [] |}.

Definition images_only : ClientSession :=
  {| request_id := 0;
     respond := fun _ _ _ => Ok [ImageContent "png"; EmbeddedResource "bible://jn/3"];
     latency := fun _ => 0 |}.

Definition bible_server : Server :=
  {| venv_python_exists := true;
     initialize := Ok tt;
     list_tools := Ok [ {| tool_name := "get_bible_verse";
                           tool_description := Some "Look up a verse";
                           tool_inputSchema := "{}" |} ];
     fresh_session := two_texts |}.

Definition turn (r s : string) : Message := {| role := r; content := Text s |}.

(** A tool server that knows one tool; the earlier a request, the later its
    answer. *)
Definition verses : ClientSession :=
  {| request_id := 0;
     respond := fun _ nm _ =>
       if String.eqb nm "get_bible_verse"
       then Ok [TextContent "For God so loved the world"]
       else Raise (RemoteError "Unknown tool");
     latency := fun n => 10 - n |}.

Definition verse_1 : ContentBlock :=
  ToolUseBlock "toolu_1" "get_bible_verse" [("book", "John"); ("chapter", "3")].
Definition search_2 : ContentBlock :=
  ToolUseBlock "toolu_2" "search_bible" [("query", "love")].
Definition verse_3 : ContentBlock :=
  ToolUseBlock "toolu_3" "get_bible_verse" [("book", "1 John"); ("chapter", "4")].

Definition first_request : Response :=
  {| stop_reason := "tool_use";
     resp_content := [TextBlock "Let me look that up."; verse_1; search_2] |}.

(** An endpoint that asks for two tools, then for one more, then answers. *)
Definition scripted (n : nat) (_ : list ToolEntry) (_ : list Message)
  : result Response :=
  match n with
  | 0 => Ok first_request
  | 1 => Ok {| stop_reason := "tool_use"; resp_content := [verse_3] |}
  | _ => Ok {| stop_reason := "end_turn";
               resp_content := [TextBlock "John 3:16 - ";
                                TextBlock "For God so loved the world"] |}
  end.

Definition new_logger (fmt : string) (disk : nat -> bool) : ConversationLogger :=
  {| format := fmt; conversations := []; log_file_json := [];
     log_file_text := []; fs_ops := 0; fs_ok := disk |}.

Definition study_bot (max_history : Z) (lg : option ConversationLogger)
  : BibleChatbot :=
  Chatbot.init scripted {| session := Some verses; _tools := [] |} max_history lg.

Definition failing_disk : nat -> bool := fun _ => false.
Definition working_disk : nat -> bool := fun _ => true.

Definition final_answer : Response :=
  {| stop_reason := "end_turn";
     resp_content := [TextBlock "John 3:16 - ";
                      TextBlock "For God so loved the world"] |}.

(** The transcript of the first continuation call of that session. *)
Definition second_transcript : list Message :=
  [ {| role := "user"; content := Text "John 3:16?" |};
    {| role := "assistant"; content := Blocks (resp_content first_request) |};
    {| role := "user";
       content := ToolResults
         [ {| tr_type := "tool_result"; tr_tool_use_id := "toolu_1";
              tr_content := "For God so loved the world";
              tr_is_error := false |};
           {| tr_type := "tool_result"; tr_tool_use_id := "toolu_2";
              tr_content := "Error: Unknown tool";
              tr_is_error := true |} ] |} ].

End Scenario.

(** ** mcp_client.py: resources *)

Module Resources.

Import MCP.

(** An entry of [response.contents]: only [TextResourceContents] has a
    [text] attribute. *)
Inductive ResourceContents : Type :=
| TextResourceContents (uri : string) (text : string)
| BlobResourceContents (uri : string) (blob : string).

Definition resource_text (c : ResourceContents) : option string :=
  match c with
  | TextResourceContents _ t => Some t
  | BlobResourceContents _ _ => None
  end.

(** An entry of [response.resources], and the dict built from it. *)
Record Resource : Type := mkResource {
  res_uri : string;
  res_name : string;
  res_description : option string
}.

(** The server's answers to the two resource requests, by request
    number. *)
Record ResourceServer : Type := mkResourceServer {
  on_list_resources : nat -> result (list Resource);
  on_read_resource : nat -> string -> result (list ResourceContents)
}.

Definition not_connected_short : exn := RuntimeError "Not connected".

(** The session after one more request. *)
Definition next_request (s : ClientSession) : ClientSession :=
  {| request_id := S (request_id s);
     respond := respond s;
     latency := latency s |}.

(** [list_resources] *)
Definition list_resources (c : FHLBibleClient) (srv : ResourceServer)
  : FHLBibleClient * result (list Resource) :=
  match session c with
  | None => (c, Raise not_connected_short)
  | Some s =>
      ({| session := Some (next_request s); _tools := _tools c |},
       match on_list_resources srv (request_id s) with
       | Raise e => Raise e
       | Ok resources =>
           Ok (map (fun r => {| res_uri := res_uri r;
                                res_name := res_name r;
                                res_description := res_description r |})
                   resources)
       end)
  end.

(** [read_resource] *)
Definition read_resource (c : FHLBibleClient) (srv : ResourceServer)
    (uri : string) : FHLBibleClient * result string :=
  match session c with
  | None => (c, Raise not_connected_short)
  | Some s =>
      ({| session := Some (next_request s); _tools := _tools c |},
       match on_read_resource srv (request_id s) uri with
       | Raise e => Raise e
       | Ok contents =>
           Ok match contents with
              | [] => ""
              | _ => join newline (omap resource_text contents)
              end
       end)
  end.

End Resources.

(** ** chatbot.py: log_summary and main *)

Module Console.

Import MCP Chatbot.

(** The dict returned by [log_summary]; the session identifier and the
    clock readings are left out. *)
Record Summary : Type := mkSummary {
  total_messages : nat
}.

(** [log_summary]: the footer goes to the text file only. *)
Definition log_summary (lg : ConversationLogger) (count : nat)
  : ConversationLogger * result Summary :=
  let summary := {| total_messages := count |} in
  if format_in (format lg) ["text"; "both"] then
    let '(l, r) := open_file lg in
    match r with
    | Raise e => (l, Raise e)
    | Ok _ => (l, Ok summary)
    end
  else (lg, Ok summary).

(** How the interactive session ends: the loop is left ([quit] or end of
    input), an exception escapes, or a turn never finishes. *)
Inductive SessionEnd : Type :=
| Ended
| Crashed (e : exn)
| Hung.

Section Loop.

(** [str.strip] and [str.lower]. *)
Variables strip lower : string -> string.

(** The [while True] loop of [main] over the lines typed by the user; the
    end of the list is the [EOFError] of [input]. *)
Fixpoint repl (fuel : nat) (b : BibleChatbot) (message_count : nat)
    (lines : list string) : BibleChatbot * nat * SessionEnd :=
  match lines with
  | [] => (b, message_count, Ended)
  | line :: rest =>
      let user_input := strip line in
      if String.eqb user_input "" then repl fuel b message_count rest
      else if String.eqb (lower user_input) "quit" then (b, message_count, Ended)
      else if String.eqb (lower user_input) "clear"
      then repl fuel (clear_history b) message_count rest
      else
        let '(b1, out) := chat fuel b user_input in
        match out with
        | Returned _ => repl fuel b1 (S message_count) rest
        | Unfinished => (b1, message_count, Hung)
        | Raised e =>
            match logger b1 with
            | None => repl fuel b1 message_count rest
            | Some lg =>
                let '(lg', w) :=
                  log_message lg user_input "" [] [] (Some (str e)) in
                let b2 := set_logger (Some lg') b1 in
                match w with
                | Raise e' => (b2, message_count, Crashed e')
                | Ok _ => repl fuel b2 message_count rest
                end
            end
        end
  end.

(** [main], from [async with chatbot.mcp_client.connect()] on: connect, run
    the loop, log the summary, leave the connection scope. *)
Definition main (fuel : nat) (b : BibleChatbot) (srv : Server)
    (lines : list string) : BibleChatbot * nat * SessionEnd :=
  let '(c1, connected) := connect_enter (mcp_client b) srv in
  let b0 := set_mcp_client c1 b in
  match connected with
  | Raise e => (b0, 0, Crashed e)
  | Ok _ =>
      let '(b1, message_count, ending) := repl fuel b0 0 lines in
      match ending with
      | Ended =>
          match logger b1 with
          | None =>
              (set_mcp_client (connect_exit (mcp_client b1)) b1,
               message_count, Ended)
          | Some lg =>
              let '(lg', s) := log_summary lg message_count in
              let b2 := set_logger (Some lg') b1 in
              match s with
              | Raise e => (b2, message_count, Crashed e)
              | Ok _ =>
                  (set_mcp_client (connect_exit (mcp_client b2)) b2,
                   message_count, Ended)
              end
          end
      | _ => (b1, message_count, ending)
      end
  end.

End Loop.

End Console.

(** ** Further notions *)

Module MoreNotions.

Import MCP Chatbot Notions.
Local Open Scope list_scope.

(** The log entry each request of a batch ends up with. *)
Definition batch_infos (c : FHLBibleClient) (calls : list ToolUse)
  : list ToolResultInfo :=
  imap (fun k tc => tool_result_info tc (kth_answer c k tc)) calls.

(** Call number [n] of the endpoint never asks for tools. *)
Definition final_at (a : Anthropic) (n : nat) : Prop :=
  forall tools msgs r,
    create a n tools msgs = Ok r -> stop_reason r <> "tool_use".

(** The endpoint asks for tools at every call. *)
Definition always_tool_use (a : Anthropic) : Prop :=
  forall n tools msgs,
    exists r, create a n tools msgs = Ok r /\ stop_reason r = "tool_use".

(** A sequence of [log_message] calls, going on after a failed write. *)
Definition log_all (lg : ConversationLogger) (entries : list LogEntry)
  : ConversationLogger :=
  fold_left
    (fun l e => fst (log_message l (le_user_message e) (le_assistant_response e)
                       (le_tool_calls e) (le_tool_results e) (le_error e)))
    entries lg.

End MoreNotions.

(** ** Further worked values *)

Module MoreScenario.

Import MCP Chatbot Resources Scenario.

(** A server that accepts the handshake and then fails to list its
    tools. *)
Definition no_listing : Server :=
  {| venv_python_exists := true;
     initialize := Ok tt;
     list_tools := Raise (RemoteError "list_tools timed out");
     fresh_session := two_texts |}.

Definition psalm_server : ResourceServer :=
  {| on_list_resources := fun _ =>
       Ok [ {| res_uri := "bible://ps/23"; res_name := "Psalm 23";
               res_description := None |} ];
     on_read_resource := fun _ _ =>
       Ok [TextResourceContents "bible://ps/23" "The LORD is my shepherd";
           BlobResourceContents "bible://ps/23" "AAAA";
           TextResourceContents "bible://ps/23" "I shall not want"] |}.

(** An endpoint that asks for the same two tools at every call. *)
Definition insatiable (_ : nat) (_ : list ToolEntry) (_ : list Message)
  : result Response :=
  Ok first_request.

(** A disk that refuses the first attempt and accepts the following
    ones. *)
Definition flaky_disk (n : nat) : bool :=
  match n with
  | 0 => false
  | _ => true
  end.

Definition first_record : LogEntry :=
  {| le_user_message := "John 3:16?";
     le_assistant_response := "For God so loved the world";
     le_tool_calls := []; le_tool_results := []; le_error := None |}.

Definition second_record : LogEntry :=
  {| le_user_message := "Thank you";
     le_assistant_response := "You are welcome";
     le_tool_calls := []; le_tool_results := []; le_error := None |}.

(** An endpoint that is down. *)
Definition unreachable (_ : nat) (_ : list ToolEntry) (_ : list Message)
  : result Response :=
  Raise (APIError "overloaded").

(** Stand-ins for [str.strip] and [str.lower] on lines that are already
    trimmed and in lower case. *)
Definition as_typed (line : string) : string := line.

End MoreScenario.

(** * Properties *)

(** ** The tool-server client *)

Module MCPFacts.

Import MCP Scenario.

(** Joining nothing gives the empty string, so the emptiness test in
    [call_tool] never changes the outcome. *)
Lemma extract_text_join (content : list Content) :
  extract_text content = join newline (omap text_of content).
Proof. destruct content; reflexivity. Qed.

Lemma omap_text_of_none (content : list Content) :
  (forall x, In x content -> text_of x = None) ->
  omap text_of content = [].
Proof.
  induction content as [|x content IH]; intros H; simpl.
  - reflexivity.
  - rewrite (H x (or_introl eq_refl)). apply IH.
    intros y Hy. apply H. now right.
Qed.

Lemma call_tool_connected (c : FHLBibleClient) (s : ClientSession)
    (nm : string) (arguments : Args) :
  session c = Some s ->
  snd (call_tool c nm arguments) =
    match respond s (request_id s) nm arguments with
    | Raise e => Raise e
    | Ok content => Ok (join newline (omap text_of content))
    end.
Proof.
  intros Hs. unfold call_tool. rewrite Hs. simpl.
  destruct (respond s (request_id s) nm arguments); simpl.
  - now rewrite extract_text_join.
  - reflexivity.
Qed.

(** C6, as stated, fails: with two text segments the returned text is not
    their concatenation, a line break stands between them. *)
Lemma call_tool_not_plain_concatenation :
  session connected = Some two_texts /\
  respond two_texts (request_id two_texts) "get_bible_verse" [] =
    Ok [TextContent "In the beginning"; ImageContent "png";
        TextContent "was the Word"] /\
  snd (call_tool connected "get_bible_verse" []) =
    Ok ("In the beginning" ++ newline ++ "was the Word") /\
  snd (call_tool connected "get_bible_verse" []) <>
    Ok ("In the beginning" ++ "was the Word").
Proof. repeat split; try reflexivity. discriminate. Qed.

(** C6 (amended): without a session [call_tool] raises the not-connected
    error and leaves the client as it was; with a session whose remote call
    succeeds it returns the text segments of the result joined by line
    breaks. *)
Theorem call_tool_contract (c : FHLBibleClient) (nm : string) (arguments : Args) :
  (session c = None ->
     call_tool c nm arguments = (c, Raise not_connected)) /\
  (forall s content,
     session c = Some s ->
     respond s (request_id s) nm arguments = Ok content ->
     snd (call_tool c nm arguments) = Ok (join newline (omap text_of content))).
Proof.
  split.
  - intros Hs. unfold call_tool. now rewrite Hs.
  - intros s content Hs Hr.
    rewrite (call_tool_connected c s nm arguments Hs). now rewrite Hr.
Qed.

Lemma call_tool_contract_witness :
  call_tool MCP.init "get_bible_verse" [] = (MCP.init, Raise not_connected) /\
  snd (call_tool connected "get_bible_verse" []) =
    Ok (join newline ["In the beginning"; "was the Word"]).
Proof.
  split.
  - apply (proj1 (call_tool_contract MCP.init "get_bible_verse" [])).
    reflexivity.
  - apply (proj2 (call_tool_contract connected "get_bible_verse" [])
             two_texts
             [TextContent "In the beginning"; ImageContent "png";
              TextContent "was the Word"]); reflexivity.
Defined.

(** C10: with a session and a successful remote call, the returned text is
    the line-break join of the text-bearing blocks in order; in particular
    it is the empty string when the result has no content or no block with
    a text. *)
Theorem call_tool_text (c : FHLBibleClient) (s : ClientSession)
    (nm : string) (arguments : Args) (content : list Content) :
  session c = Some s ->
  respond s (request_id s) nm arguments = Ok content ->
  snd (call_tool c nm arguments) = Ok (join newline (omap text_of content)) /\
  (content = [] -> snd (call_tool c nm arguments) = Ok "") /\
  ((forall x, In x content -> text_of x = None) ->
     snd (call_tool c nm arguments) = Ok "").
Proof.
  intros Hs Hr.
  assert (E : snd (call_tool c nm arguments) =
              Ok (join newline (omap text_of content))).
  { rewrite (call_tool_connected c s nm arguments Hs). now rewrite Hr. }
  split; [exact E|]. split.
  - intros ->. exact E.
  - intros Hnone. rewrite E. now rewrite (omap_text_of_none content Hnone).
Qed.

Lemma call_tool_text_witness :
  snd (call_tool {| session := Some images_only; _tools := [] |} "get_map" [])
  = Ok "".
Proof.
  refine (proj2 (proj2 (call_tool_text
            {| session := Some images_only; _tools := [] |} images_only
            "get_map" [] [ImageContent "png"; EmbeddedResource "bible://jn/3"]
            eq_refl eq_refl)) _).
  intros x [<-|[<-|[]]]; reflexivity.
Defined.

(** [get_tools_for_claude] rebuilds each entry field by field. *)
Lemma get_tools_for_claude_cached (c : FHLBibleClient) :
  get_tools_for_claude c = Ok (_tools c).
Proof.
  unfold get_tools_for_claude. f_equal.
  induction (_tools c) as [|[n d i] l IH]; simpl.
  - reflexivity.
  - now rewrite IH.
Qed.

(** C7, as stated, fails: on a client that was never connected the catalog
    accessor returns the empty list instead of raising. *)
Lemma catalog_outside_scope_returns :
  session MCP.init = None /\
  get_tools_for_claude MCP.init = Ok [] /\
  (forall e, get_tools_for_claude MCP.init <> Raise e).
Proof. repeat split. intros e. discriminate. Qed.

(** C7 (amended): the catalog accessor never fails.  It returns the cached
    catalog whatever the connection state: the empty list before any
    connection, the catalog fetched at connection establishment inside the
    scope, and that same catalog once the scope has been left. *)
Theorem catalog_is_cached_list (c : FHLBibleClient) (srv : Server)
    (listed : list Tool) :
  get_tools_for_claude c = Ok (_tools c) /\
  get_tools_for_claude MCP.init = Ok [] /\
  (venv_python_exists srv = true ->
   initialize srv = Ok tt ->
   list_tools srv = Ok listed ->
   let c' := fst (connect_enter c srv) in
   session c' = Some (fresh_session srv) /\
   get_tools_for_claude c' = Ok (map entry_of_tool listed) /\
   session (connect_exit c') = None /\
   get_tools_for_claude (connect_exit c') = Ok (map entry_of_tool listed)).
Proof.
  split; [apply get_tools_for_claude_cached|].
  split; [reflexivity|].
  intros Hv Hi Hl. unfold connect_enter, _get_server_params.
  rewrite Hv, Hi, Hl. simpl.
  rewrite !get_tools_for_claude_cached. simpl. auto.
Qed.

Lemma catalog_is_cached_list_witness :
  get_tools_for_claude (connect_exit (fst (connect_enter MCP.init bible_server)))
  = Ok [ {| name := "get_bible_verse";
            description := Some "Look up a verse";
            input_schema := "{}" |} ].
Proof.
  exact (proj2 (proj2 (proj2
    (proj2 (proj2 (catalog_is_cached_list MCP.init bible_server
       [ {| tool_name := "get_bible_verse";
            tool_description := Some "Look up a verse";
            tool_inputSchema := "{}" |} ]))
       eq_refl eq_refl eq_refl)))).
Defined.

End MCPFacts.

(** ** The chatbot *)

Module ChatbotFacts.

Import MCP Chatbot Notions Scenario.
Local Open Scope list_scope.

(** *** History retention *)

Lemma slice_from_neg {A : Type} (l : list A) (k : Z) :
  (0 < k)%Z ->
  slice_from l (- k) = drop (length l - Z.to_nat k) l.
Proof.
  intros Hk. unfold slice_from.
  destruct (Z.ltb_spec (- k) 0) as [_|H]; [|lia].
  f_equal. lia.
Qed.

Lemma prune_long (max_turns : Z) (h : list Message) :
  (0 < max_turns)%Z -> (max_turns < Z.of_nat (length h))%Z ->
  prune max_turns h = drop (length h - Z.to_nat max_turns) h.
Proof.
  intros H0 H1. unfold prune.
  destruct (Z.ltb_spec 0 max_turns) as [_|]; [|lia].
  destruct (Z.ltb_spec max_turns (Z.of_nat (length h))) as [_|]; [|lia].
  simpl. now apply slice_from_neg.
Qed.

Lemma prune_short (max_turns : Z) (h : list Message) :
  (max_turns <= 0 \/ Z.of_nat (length h) <= max_turns)%Z ->
  prune max_turns h = h.
Proof.
  intros H. unfold prune.
  destruct (Z.ltb_spec 0 max_turns); simpl; [|reflexivity].
  destruct (Z.ltb_spec max_turns (Z.of_nat (length h))); [lia|reflexivity].
Qed.

(** Whatever the bound, pruning keeps a final segment of the history. *)
Lemma prune_drop (max_turns : Z) (h : list Message) :
  exists n, prune max_turns h = drop n h.
Proof.
  destruct (Z_lt_le_dec 0 max_turns) as [H0|H0].
  - destruct (Z_lt_le_dec max_turns (Z.of_nat (length h))) as [H1|H1].
    + eexists. now apply prune_long.
    + exists 0. rewrite prune_short by lia. reflexivity.
  - exists 0. rewrite prune_short by lia. reflexivity.
Qed.

(** C3: with [max_turns > 0] pruning leaves [min max_turns length] turns,
    and they are the last ones of the transcript in their order (the
    transcript is some older turns followed by exactly the kept ones); with
    [max_turns = 0] the transcript is unchanged. *)
Theorem prune_keeps_most_recent (max_turns : Z) (h : list Message) :
  ((0 < max_turns)%Z ->
     length (prune max_turns h) = Nat.min (Z.to_nat max_turns) (length h) /\
     prune max_turns h = drop (length h - Nat.min (Z.to_nat max_turns) (length h)) h /\
     exists older, h = older ++ prune max_turns h) /\
  prune 0 h = h.
Proof.
  split.
  - intros H0.
    destruct (Z_lt_le_dec max_turns (Z.of_nat (length h))) as [H1|H1].
    + rewrite prune_long by assumption.
      replace (Nat.min (Z.to_nat max_turns) (length h)) with (Z.to_nat max_turns) by lia.
      split; [rewrite length_drop; lia|]. split; [reflexivity|].
      exists (take (length h - Z.to_nat max_turns) h).
      symmetry. apply take_drop.
    + rewrite prune_short by lia.
      replace (Nat.min (Z.to_nat max_turns) (length h)) with (length h) by lia.
      split; [reflexivity|]. split.
      * now rewrite Nat.sub_diag.
      * now exists [].
  - apply prune_short. lia.
Qed.

Lemma prune_keeps_most_recent_witness :
  length (prune 2 [turn "user" "a"; turn "assistant" "b"; turn "user" "c"]) = 2 /\
  prune 2 [turn "user" "a"; turn "assistant" "b"; turn "user" "c"]
    = [turn "assistant" "b"; turn "user" "c"] /\
  exists older,
    [turn "user" "a"; turn "assistant" "b"; turn "user" "c"]
    = older ++ prune 2 [turn "user" "a"; turn "assistant" "b"; turn "user" "c"].
Proof.
  exact (proj1 (prune_keeps_most_recent 2
           [turn "user" "a"; turn "assistant" "b"; turn "user" "c"])
         ltac:(lia)).
Defined.

(** *** One batch of tool calls *)

Lemma same_conversation_refl b : same_conversation b b.
Proof. repeat split. Qed.

Lemma same_conversation_trans b1 b2 b3 :
  same_conversation b1 b2 -> same_conversation b2 b3 -> same_conversation b1 b3.
Proof.
  intros (H1 & H2 & H3 & H4) (K1 & K2 & K3 & K4).
  repeat split; congruence.
Qed.

Lemma consistent_insert expected slots k r :
  consistent expected slots ->
  expected !! k = Some r ->
  consistent expected (<[k := Some r]> slots).
Proof.
  intros [Hlen Hc] Hk. split.
  - now rewrite length_insert.
  - intros j r' Hj. destruct (decide (k = j)) as [->|Hne].
    + rewrite list_lookup_insert_eq in Hj; [congruence|].
      rewrite Hlen. eapply lookup_lt_Some; eassumption.
    + rewrite list_lookup_insert_ne in Hj by assumption. now apply Hc.
Qed.

Lemma filled_insert_same expected slots k r :
  consistent expected slots ->
  expected !! k = Some r ->
  filled (<[k := Some r]> slots) k.
Proof.
  intros [Hlen _] Hk. exists r. apply list_lookup_insert_eq.
  rewrite Hlen. eapply lookup_lt_Some; eassumption.
Qed.

Lemma filled_insert_mono slots k r j :
  filled slots j -> filled (<[k := Some r]> slots) j.
Proof.
  intros [r' Hj]. destruct (decide (k = j)) as [->|Hne].
  - exists r. apply list_lookup_insert_eq. eapply lookup_lt_Some; eassumption.
  - exists r'. now rewrite list_lookup_insert_ne.
Qed.

(** The first step of a coroutine. *)
Lemma execute_tool_start_spec b i tc :
  let '(b1, t) := execute_tool_start b i tc in
  same_conversation b b1 /\
  (forall k tc', kth_answer (mcp_client b1) k tc'
                 = kth_answer (mcp_client b) (S k) tc') /\
  match t with
  | inl res => res = tool_result tc (kth_answer (mcp_client b) 0 tc)
  | inr w => w_index w = i /\ w_call w = tc /\
             w_answer w = kth_answer (mcp_client b) 0 tc
  end.
Proof.
  unfold execute_tool_start, call_tool, kth_answer. simpl.
  destruct (session (mcp_client b)) as [s|] eqn:Hs; simpl.
  - split; [repeat split|]. split.
    + intros k tc'. now rewrite Nat.add_succ_r.
    + rewrite Nat.add_0_r. auto.
  - split; [repeat split|]. split.
    + intros k tc'. now rewrite Hs.
    + reflexivity.
Qed.

Lemma start_all_spec expected calls :
  forall b i slots b' slots' ws,
  i + length calls <= length slots ->
  consistent expected slots ->
  (forall j tc, calls !! j = Some tc ->
     expected !! (i + j) = Some (tool_result tc (kth_answer (mcp_client b) j tc))) ->
  start_all b i calls slots = (b', slots', ws) ->
  same_conversation b b' /\
  consistent expected slots' /\
  (forall w, In w ws -> good expected w) /\
  (forall k, filled slots k -> filled slots' k) /\
  (forall j, j < length calls ->
     filled slots' (i + j) \/ exists w, In w ws /\ w_index w = i + j).
Proof.
  induction calls as [|tc rest IH]; intros b i slots b' slots' ws Hlen Hc Hexp Hrun;
    simpl in Hrun.
  - inversion Hrun; subst. split; [apply same_conversation_refl|].
    split; [assumption|]. split; [intros w []|]. split; [auto|].
    simpl. intros j Hj. lia.
  - pose proof (execute_tool_start_spec b i tc) as Hstart.
    destruct (execute_tool_start b i tc) as [b1 t].
    destruct Hstart as (Hsame & Hshift & Ht).
    assert (Hhead : expected !! i
                    = Some (tool_result tc (kth_answer (mcp_client b) 0 tc))).
    { rewrite <- (Nat.add_0_r i) at 1. now apply Hexp. }
    assert (Hexp' : forall j tc', rest !! j = Some tc' ->
              expected !! (S i + j)
              = Some (tool_result tc' (kth_answer (mcp_client b1) j tc'))).
    { intros j tc' Hj. rewrite Hshift.
      replace (S i + j) with (i + S j) by lia. now apply Hexp. }
    simpl in Hlen.
    destruct t as [res|w].
    + subst res.
      assert (Hlen' : S i + length rest
                      <= length (<[i := Some (tool_result tc
                                   (kth_answer (mcp_client b) 0 tc))]> slots))
        by (rewrite length_insert; lia).
      destruct (IH b1 (S i) _ b' slots' ws Hlen'
                  (consistent_insert _ _ _ _ Hc Hhead) Hexp' Hrun)
        as (Hs2 & Hc2 & Hg2 & Hm2 & Hf2).
      split; [eapply same_conversation_trans; eassumption|].
      split; [assumption|]. split; [assumption|]. split.
      * intros k Hk. apply Hm2. now apply filled_insert_mono.
      * intros [|j] Hj.
        -- left. rewrite Nat.add_0_r. apply Hm2.
           eapply filled_insert_same; eassumption.
        -- replace (i + S j) with (S i + j) by lia. apply Hf2. simpl in Hj. lia.
    + destruct (start_all b1 (S i) rest slots) as [[b2 slots2] ws2] eqn:Hrest.
      inversion Hrun; subst.
      assert (Hlen' : S i + length rest <= length slots) by lia.
      destruct (IH b1 (S i) slots b' slots' ws2 Hlen' Hc Hexp' Hrest)
        as (Hs2 & Hc2 & Hg2 & Hm2 & Hf2).
      destruct Ht as (Hi & Hcall & Hans).
      split; [eapply same_conversation_trans; eassumption|].
      split; [assumption|]. split.
      * intros v [<-|Hv]; [|now apply Hg2].
        unfold good. now rewrite Hi, Hcall, Hans.
      * split; [assumption|].
        intros [|j] Hj.
        -- right. exists w. split; [now left|]. lia.
        -- replace (i + S j) with (S i + j) by lia.
           assert (Hj' : j < length rest) by (simpl in Hj; lia).
           destruct (Hf2 j Hj') as [Hfl|[v [Hv Hvi]]];
             [now left|right].
           exists v. split; [now right|assumption].
Qed.

(** Ordering the answers by latency neither loses nor invents one. *)
Lemma insert_by_latency_perm w ws :
  Permutation (insert_by_latency w ws) (w :: ws).
Proof.
  induction ws as [|v ws IH]; simpl.
  - reflexivity.
  - destruct (w_latency w <=? w_latency v)%nat.
    + reflexivity.
    + rewrite IH. apply perm_swap.
Qed.

Lemma completion_order_perm ws : Permutation (completion_order ws) ws.
Proof.
  induction ws as [|w ws IH]; simpl.
  - reflexivity.
  - rewrite insert_by_latency_perm. now apply perm_skip.
Qed.

Lemma insert_by_latency_sorted w ws :
  Sorted (fun u v => w_latency u <= w_latency v) ws ->
  Sorted (fun u v => w_latency u <= w_latency v) (insert_by_latency w ws).
Proof.
  induction 1 as [|v ws Hs IH Hhd]; simpl.
  - repeat constructor.
  - destruct (Nat.leb_spec (w_latency w) (w_latency v)) as [Hle|Hgt].
    + repeat constructor; assumption.
    + constructor; [exact IH|].
      destruct Hhd as [|u ws' Hu]; simpl.
      * constructor. lia.
      * destruct (w_latency w <=? w_latency u)%nat; constructor; [lia|exact Hu].
Qed.

(** The answers are taken by increasing latency. *)
Lemma completion_order_sorted ws :
  Sorted (fun u v => w_latency u <= w_latency v) (completion_order ws).
Proof.
  induction ws as [|w ws IH]; simpl.
  - constructor.
  - now apply insert_by_latency_sorted.
Qed.

Lemma finish_all_spec expected order :
  forall b slots b' slots',
  consistent expected slots ->
  (forall w, In w order -> good expected w) ->
  finish_all b slots order = (b', slots') ->
  same_conversation b b' /\
  mcp_client b' = mcp_client b /\
  current_tool_calls b' = current_tool_calls b /\
  consistent expected slots' /\
  (forall k, filled slots k -> filled slots' k) /\
  (forall w, In w order -> filled slots' (w_index w)).
Proof.
  induction order as [|w rest IH]; intros b slots b' slots' Hc Hg Hrun;
    simpl in Hrun.
  - inversion Hrun; subst.
    split; [apply same_conversation_refl|].
    split; [reflexivity|]. split; [reflexivity|]. split; [assumption|].
    split; [auto|]. intros w [].
  - unfold execute_tool_resume in Hrun.
    assert (Hw : good expected w) by (apply Hg; now left).
    destruct (IH _ _ b' slots' (consistent_insert _ _ _ _ Hc Hw)
                (fun v Hv => Hg v (or_intror Hv)) Hrun)
      as ((H1 & H2 & H3 & H4) & Hm & Htc & Hc' & Hmono & Hfill).
    split; [repeat split; assumption|].
    split; [assumption|]. split; [assumption|]. split; [assumption|]. split.
    + intros k Hk. apply Hmono. now apply filled_insert_mono.
    + intros v [<-|Hv]; [|now apply Hfill].
      apply Hmono. eapply filled_insert_same; eassumption.
Qed.

Lemma all_settled_map_Some (rs : list ToolResult) :
  all_settled (map Some rs) = Some rs.
Proof.
  induction rs as [|r rs IH]; simpl.
  - reflexivity.
  - now rewrite IH.
Qed.

Lemma all_settled_full expected slots :
  consistent expected slots ->
  (forall k, k < length expected -> filled slots k) ->
  all_settled slots = Some expected.
Proof.
  intros [Hlen Hc] Hfull.
  assert (E : slots = map Some expected).
  { apply list_eq. intros k. rewrite list_lookup_fmap.
    destruct (Nat.lt_ge_cases k (length expected)) as [Hk|Hk].
    - destruct (Hfull k Hk) as [r Hr]. rewrite Hr.
      now rewrite (Hc k r Hr).
    - rewrite (lookup_ge_None_2 slots k) by lia.
      now rewrite (lookup_ge_None_2 expected k) by lia. }
  rewrite E. apply all_settled_map_Some.
Qed.

(** [gather] always returns, and what it returns is the result of every
    request in request order, whatever the latencies. *)
Lemma gather_spec b calls :
  exists b',
    gather b calls = (b', Some (batch_results (mcp_client b) calls)) /\
    same_conversation b b'.
Proof.
  unfold gather.
  set (expected := batch_results (mcp_client b) calls).
  assert (Hlenexp : length expected = length calls)
    by (unfold expected, batch_results; apply length_imap).
  destruct (start_all b 0 calls (replicate (length calls) None))
    as [[b1 slots1] ws] eqn:Hstart.
  destruct (finish_all b1 slots1 (completion_order ws)) as [b2 slots2] eqn:Hfin.
  assert (Hc0 : consistent expected (replicate (length calls) None)).
  { split; [now rewrite length_replicate|].
    intros k r Hk. apply lookup_replicate in Hk. destruct Hk; discriminate. }
  assert (Hexp : forall j tc, calls !! j = Some tc ->
            expected !! (0 + j)
            = Some (tool_result tc (kth_answer (mcp_client b) j tc))).
  { intros j tc Hj. unfold expected, batch_results.
    rewrite list_lookup_imap. simpl. now rewrite Hj. }
  assert (Hlen0 : 0 + length calls <= length (replicate (length calls) (@None ToolResult)))
    by (rewrite length_replicate; lia).
  destruct (start_all_spec expected calls b 0 _ b1 slots1 ws Hlen0 Hc0 Hexp Hstart)
    as (Hs1 & Hc1 & Hg1 & _ & Hf1).
  assert (Hg1' : forall w, In w (completion_order ws) -> good expected w).
  { intros w Hw. apply Hg1.
    eapply Permutation_in; [apply completion_order_perm|exact Hw]. }
  destruct (finish_all_spec expected _ b1 slots1 b2 slots2 Hc1 Hg1' Hfin)
    as (Hs2 & _ & _ & Hc2 & Hm2 & Hf2).
  exists b2. split.
  - f_equal. apply all_settled_full; [assumption|].
    intros k Hk. rewrite Hlenexp in Hk.
    destruct (Hf1 k Hk) as [Hfl|[w [Hw Hwi]]].
    + now apply Hm2.
    + simpl in Hwi. rewrite <- Hwi. apply Hf2.
      eapply Permutation_in; [symmetry; apply completion_order_perm|exact Hw].
  - eapply same_conversation_trans; eassumption.
Qed.

(** *** One iteration of the tool-use loop *)

(** An iteration appends the assistant turn and the batch of results, then
    calls the model on the extended history. *)
Lemma tool_use_iteration fuel b tools response :
  stop_reason response = "tool_use" ->
  exists b4,
    tool_use_loop (S fuel) b tools response
      = continue_with fuel tools (messages_create b4 tools) /\
    conversation_history b4
      = conversation_history b ++
        [assistant_turn response;
         result_turn (batch_results (mcp_client b)
                        (tool_use_blocks (resp_content response)))] /\
    client b4 = client b /\
    logger b4 = logger b /\
    max_history b4 = max_history b.
Proof.
  intros Hstop. simpl. rewrite Hstop. simpl.
  set (b2 := set_tool_results [] (set_tool_calls []
               (history_append _ b))).
  destruct (gather_spec b2 (tool_use_blocks (resp_content response)))
    as (b3 & Hg & Hh & Hc & Hl & Hm).
  rewrite Hg.
  exists (history_append
            (result_turn (batch_results (mcp_client b2)
                            (tool_use_blocks (resp_content response)))) b3).
  split; [reflexivity|]. simpl. rewrite Hh. simpl.
  rewrite <- app_assoc. simpl. auto.
Qed.

Lemma batch_results_lookup c calls k tc :
  calls !! k = Some tc ->
  batch_results c calls !! k = Some (tool_result tc (kth_answer c k tc)).
Proof.
  intros Hk. unfold batch_results. rewrite list_lookup_imap. now rewrite Hk.
Qed.

Lemma batch_results_ids c calls :
  map tr_tool_use_id (batch_results c calls) = map tu_id calls.
Proof.
  apply list_eq. intros k. rewrite !list_lookup_fmap.
  destruct (calls !! k) as [tc|] eqn:Hk.
  - rewrite (batch_results_lookup c calls k tc Hk). simpl.
    now destruct (kth_answer c k tc).
  - rewrite (lookup_ge_None_2 (batch_results c calls) k); [reflexivity|].
    unfold batch_results. rewrite length_imap. now apply lookup_ge_None_1.
Qed.

Lemma batch_results_with_latency lat b calls :
  batch_results (mcp_client (with_latency lat b)) calls
  = batch_results (mcp_client b) calls.
Proof.
  unfold batch_results. apply imap_ext. intros k tc _.
  unfold kth_answer. simpl. now destruct (session (mcp_client b)).
Qed.

(** C1: in an iteration that dispatches the [N] tool calls of a response,
    there is one batch of exactly [N] entries, the entry at each position
    being a tool_result that carries the [tool_use_id] of the request at
    that position, such that whatever the latencies [lat] of the remote
    answers (hence whatever the order in which the calls complete) the loop
    reaches the next model call with the history extended by the assistant
    turn and that batch. *)
Theorem batch_matches_requests (fuel : nat) (b : BibleChatbot)
    (tools : list ToolEntry) (response : Response) :
  stop_reason response = "tool_use" ->
  let calls := tool_use_blocks (resp_content response) in
  exists rs,
    length rs = length calls /\
    (forall k tc, calls !! k = Some tc ->
       exists r, rs !! k = Some r /\
                 tr_type r = "tool_result" /\
                 tr_tool_use_id r = tu_id tc) /\
    forall lat, exists b4,
      tool_use_loop (S fuel) (with_latency lat b) tools response
        = continue_with fuel tools (messages_create b4 tools) /\
      conversation_history b4
        = conversation_history b ++ [assistant_turn response; result_turn rs].
Proof.
  intros Hstop calls.
  exists (batch_results (mcp_client b) calls).
  split; [unfold batch_results; apply length_imap|]. split.
  - intros k tc Hk.
    exists (tool_result tc (kth_answer (mcp_client b) k tc)). split.
    + now apply batch_results_lookup.
    + now destruct (kth_answer (mcp_client b) k tc).
  - intros lat.
    destruct (tool_use_iteration fuel (with_latency lat b) tools response Hstop)
      as (b4 & Hloop & Hhist & _).
    exists b4. split; [exact Hloop|].
    rewrite Hhist. now rewrite batch_results_with_latency.
Qed.

(** C2: when the remote invocation of one call of a batch raises, its entry
    in the batch turn is error-tagged and its content carries the message
    of the exception; every sibling whose invocation succeeds has its
    normal, untagged result; and the loop goes on to the next model call
    with that batch in the history. *)
Theorem failed_call_is_local (fuel : nat) (b : BibleChatbot)
    (tools : list ToolEntry) (response : Response)
    (s : ClientSession) (k : nat) (tc : ToolUse) (e : exn) :
  stop_reason response = "tool_use" ->
  let calls := tool_use_blocks (resp_content response) in
  session (mcp_client b) = Some s ->
  calls !! k = Some tc ->
  respond s (request_id s + k) (tu_name tc) (tu_input tc) = Raise e ->
  exists b4 rs,
    tool_use_loop (S fuel) b tools response
      = continue_with fuel tools (messages_create b4 tools) /\
    conversation_history b4
      = conversation_history b ++ [assistant_turn response; result_turn rs] /\
    length rs = length calls /\
    rs !! k = Some {| tr_type := "tool_result";
                      tr_tool_use_id := tu_id tc;
                      tr_content := ("Error: " ++ str e)%string;
                      tr_is_error := true |} /\
    forall j tc' content,
      calls !! j = Some tc' ->
      respond s (request_id s + j) (tu_name tc') (tu_input tc') = Ok content ->
      rs !! j = Some {| tr_type := "tool_result";
                        tr_tool_use_id := tu_id tc';
                        tr_content := join newline (omap text_of content);
                        tr_is_error := false |}.
Proof.
  intros Hstop calls Hs Hk He.
  destruct (tool_use_iteration fuel b tools response Hstop)
    as (b4 & Hloop & Hhist & _).
  exists b4, (batch_results (mcp_client b) calls).
  split; [exact Hloop|]. split; [exact Hhist|]. split.
  - unfold batch_results. apply length_imap.
  - split.
    + rewrite (batch_results_lookup _ _ _ _ Hk).
      unfold kth_answer. now rewrite Hs, He.
    + intros j tc' content Hj Hok.
      rewrite (batch_results_lookup _ _ _ _ Hj).
      unfold kth_answer. rewrite Hs, Hok. simpl.
      now rewrite MCPFacts.extract_text_join.
Qed.

(** In the worked session the second request is answered first: the
    outcomes are logged in completion order, the batch is in request
    order. *)
Example completion_order_differs :
  let '(b', rs) := gather (study_bot 10 None)
                     (tool_use_blocks (resp_content first_request)) in
  map tri_tool_use_id (current_tool_results b') = ["toolu_2"; "toolu_1"] /\
  map tci_id (current_tool_calls b') = ["toolu_1"; "toolu_2"] /\
  option_map (map tr_tool_use_id) rs = Some ["toolu_1"; "toolu_2"].
Proof. vm_compute. repeat split. Qed.

Lemma batch_matches_requests_witness :
  stop_reason first_request = "tool_use" /\
  exists rs,
    length rs = 2 /\
    (forall k tc,
       tool_use_blocks (resp_content first_request) !! k = Some tc ->
       exists r, rs !! k = Some r /\
                 tr_type r = "tool_result" /\
                 tr_tool_use_id r = tu_id tc) /\
    forall lat, exists b4,
      tool_use_loop 1 (with_latency lat (study_bot 10 None)) [] first_request
        = continue_with 0 [] (messages_create b4 []) /\
      conversation_history b4
        = conversation_history (study_bot 10 None) ++
          [assistant_turn first_request; result_turn rs].
Proof.
  split; [reflexivity|].
  exact (batch_matches_requests 0 (study_bot 10 None) [] first_request eq_refl).
Defined.

Lemma failed_call_is_local_witness :
  exists b4 rs,
    tool_use_loop 1 (study_bot 10 None) [] first_request
      = continue_with 0 [] (messages_create b4 []) /\
    conversation_history b4
      = conversation_history (study_bot 10 None) ++
        [assistant_turn first_request; result_turn rs] /\
    length rs = 2 /\
    rs !! 1 = Some {| tr_type := "tool_result";
                      tr_tool_use_id := "toolu_2";
                      tr_content := "Error: Unknown tool";
                      tr_is_error := true |} /\
    forall j tc' content,
      tool_use_blocks (resp_content first_request) !! j = Some tc' ->
      respond verses (request_id verses + j) (tu_name tc') (tu_input tc')
        = Ok content ->
      rs !! j = Some {| tr_type := "tool_result";
                        tr_tool_use_id := tu_id tc';
                        tr_content := join newline (omap text_of content);
                        tr_is_error := false |}.
Proof.
  exact (failed_call_is_local 0 (study_bot 10 None) [] first_request verses 1
           {| tu_id := "toolu_2"; tu_name := "search_bible";
              tu_input := [("query", "love")] |}
           (RemoteError "Unknown tool")
           eq_refl eq_refl eq_refl eq_refl).
Defined.

(** *** Transcripts sent to the model *)

Lemma paired_app h l :
  paired h = true -> paired l = true -> paired (h ++ l) = true.
Proof.
  induction h as [|m rest IH]; intros Hh Hl; simpl in *.
  - exact Hl.
  - apply andb_true_iff in Hh. destruct Hh as [Hm Hrest].
    apply andb_true_iff. split; [|now apply IH].
    destruct (issued_ids m); [reflexivity|].
    destruct rest; [discriminate|exact Hm].
Qed.

Lemma paired_drop n h : paired h = true -> paired (drop n h) = true.
Proof.
  revert h. induction n as [|n IH]; intros h Hh.
  - now rewrite drop_0.
  - destruct h as [|m rest]; [reflexivity|]. simpl.
    apply IH. simpl in Hh. apply andb_true_iff in Hh. tauto.
Qed.

Lemma paired_prune max_turns h :
  paired h = true -> paired (prune max_turns h) = true.
Proof.
  intros Hh. destruct (prune_drop max_turns h) as [n ->].
  now apply paired_drop.
Qed.

Lemma paired_text r s : paired [{| role := r; content := Text s |}] = true.
Proof. reflexivity. Qed.

Lemma answers_own_ids (rs : list ToolResult) :
  forallb (fun i => existsb (fun r => String.eqb (tr_tool_use_id r) i) rs)
          (map tr_tool_use_id rs) = true.
Proof.
  apply forallb_forall. intros i Hi.
  apply in_map_iff in Hi. destruct Hi as (r & <- & Hr).
  apply existsb_exists. exists r. split; [assumption|apply String.eqb_refl].
Qed.

Lemma paired_iteration c response :
  paired [assistant_turn response;
          result_turn (batch_results c (tool_use_blocks (resp_content response)))]
  = true.
Proof.
  simpl. rewrite andb_true_r.
  assert (E : issued_ids (assistant_turn response)
              = map tr_tool_use_id
                  (batch_results c (tool_use_blocks (resp_content response))))
    by (rewrite batch_results_ids; reflexivity).
  rewrite E. set (rs := batch_results c _).
  destruct (map tr_tool_use_id rs) eqn:E'; [reflexivity|].
  rewrite <- E'. unfold answers. simpl. apply answers_own_ids.
Qed.

Lemma settled_messages_create b tools :
  settled b -> settled (fst (messages_create b tools)).
Proof.
  intros [Hh Hr]. split; simpl; [assumption|].
  apply Forall_app. split; [assumption|]. now constructor.
Qed.

Lemma tool_use_loop_settled fuel :
  forall b tools response,
  settled b -> settled (fst (tool_use_loop fuel b tools response)).
Proof.
  induction fuel as [|fuel IH]; intros b tools response Hb.
  - simpl. now destruct (String.eqb _ _).
  - destruct (String.eqb (stop_reason response) "tool_use") eqn:Hstop.
    + apply String.eqb_eq in Hstop.
      destruct (tool_use_iteration fuel b tools response Hstop)
        as (b4 & -> & Hhist & Hcl & _).
      assert (H4 : settled b4).
      { destruct Hb as [Hh Hr]. split; [|now rewrite Hcl].
        rewrite Hhist. apply paired_app; [assumption|apply paired_iteration]. }
      pose proof (settled_messages_create b4 tools H4) as H5.
      unfold continue_with.
      destruct (messages_create b4 tools) as [b5 [response'|e]]; simpl in H5.
      * now apply IH.
      * exact H5.
    + simpl. now rewrite Hstop.
Qed.

Lemma dialogue_settled fuel b user_message :
  settled b -> settled (fst (dialogue fuel b user_message)).
Proof.
  intros [Hh Hr]. unfold dialogue.
  rewrite MCPFacts.get_tools_for_claude_cached.
  set (b2 := _prune_history (history_append _ b)).
  assert (H2 : settled b2).
  { split; [|exact Hr]. simpl. apply paired_prune.
    apply paired_app; [assumption|apply paired_text]. }
  pose proof (settled_messages_create b2 (_tools (mcp_client b2)) H2) as H3.
  destruct (messages_create b2 _) as [b3 [response|e]]; simpl in H3; [|exact H3].
  now apply tool_use_loop_settled.
Qed.

Lemma conclude_settled b user_message last :
  settled b -> settled (fst (conclude b user_message last)).
Proof.
  intros [Hh Hr].
  assert (H5 : settled (history_append
                 {| role := "assistant";
                    content := Text (final_text_of (resp_content last)) |} b)).
  { split; [|exact Hr]. simpl.
    apply paired_app; [assumption|apply paired_text]. }
  unfold conclude. simpl. destruct (logger b) as [lg|]; [|exact H5].
  destruct (log_message lg _ _ _ _ _) as [lg' [u|e]]; exact H5.
Qed.

Lemma chat_settled fuel b user_message :
  settled b -> settled (fst (chat fuel b user_message)).
Proof.
  intros Hb. unfold chat.
  pose proof (dialogue_settled fuel b user_message Hb) as H4.
  destruct (dialogue fuel b user_message) as [b4 [[last|e]|]];
    simpl in H4; try exact H4.
  now apply conclude_settled.
Qed.

(** The pairing survives pruning in this direction only: with a bound of
    three turns the second turn of the worked session sends a transcript
    that starts with a batch of results whose requests were cut off. *)
Example pruning_can_strand_results :
  let b1 := fst (chat 5 (study_bot 3 None) "John 3:16?") in
  let sent := requests (client (fst (chat 5 b1 "Thank you"))) in
  option_map (map role) (last sent) = Some ["user"; "assistant"; "user"] /\
  option_map (fun t => map issued_ids t) (last sent) = Some [[]; []; []] /\
  option_map (fun t => option_map content (head t)) (last sent)
    = Some (Some (ToolResults
         [ {| tr_type := "tool_result"; tr_tool_use_id := "toolu_3";
              tr_content := "For God so loved the world";
              tr_is_error := false |} ])) /\
  option_map paired (last sent) = Some true.
Proof. vm_compute. repeat split. Qed.

Lemma step_settled fuel b cmd : settled b -> settled (step fuel b cmd).
Proof.
  intros Hb. destruct cmd as [m| |srv|]; simpl.
  - now apply chat_settled.
  - destruct Hb as [_ Hr]. now split.
  - exact Hb.
  - exact Hb.
Qed.

(** C4: whatever a caller does with a new chatbot (turns, resets,
    connections; any endpoint, tool server, retention bound and logger; any
    amount of loop iterations), every transcript sent to the model has each
    assistant turn that issues tool calls directly followed by a batch turn
    holding a result for every call identity of that turn. *)
Theorem sent_transcripts_paired (fuel : nat)
    (endpoint : nat -> list ToolEntry -> list Message -> result Response)
    (c : FHLBibleClient) (max_history : Z) (lg : option ConversationLogger)
    (cmds : list Command) :
  Forall (fun t => paired t = true)
         (requests (client (run fuel (Chatbot.init endpoint c max_history lg) cmds))).
Proof.
  assert (H : settled (run fuel (Chatbot.init endpoint c max_history lg) cmds)).
  { unfold run.
    assert (H0 : settled (Chatbot.init endpoint c max_history lg))
      by (split; [reflexivity|constructor]).
    revert H0. generalize (Chatbot.init endpoint c max_history lg).
    induction cmds as [|cmd cmds IH]; intros b Hb; simpl.
    - exact Hb.
    - apply IH. now apply step_settled. }
  exact (proj2 H).
Qed.

(** *** When the history is pruned *)

Lemma tool_use_loop_requests fuel :
  forall b tools response,
  exists later,
    requests (client (fst (tool_use_loop fuel b tools response)))
      = requests (client b) ++ later /\
    chain (conversation_history b) later.
Proof.
  induction fuel as [|fuel IH]; intros b tools response.
  - exists []. simpl. destruct (String.eqb _ _); simpl;
      now rewrite app_nil_r.
  - destruct (String.eqb (stop_reason response) "tool_use") eqn:Hstop.
    + apply String.eqb_eq in Hstop.
      destruct (tool_use_iteration fuel b tools response Hstop)
        as (b4 & -> & Hhist & Hcl & _).
      unfold continue_with, messages_create.
      destruct (create (client b4) (api_calls (client b4)) tools
                  (conversation_history b4)) as [response'|e].
      * destruct (IH (set_client
                        {| api_calls := S (api_calls (client b4));
                           create := create (client b4);
                           requests := requests (client b4)
                                         ++ [conversation_history b4] |} b4)
                     tools response') as (later & Hreq & Hchain).
        exists (conversation_history b4 :: later). split.
        -- rewrite Hreq. simpl. rewrite Hcl, <- app_assoc. reflexivity.
        -- simpl. split; [|exact Hchain]. rewrite Hhist. eauto.
      * exists [conversation_history b4]. simpl. split.
        -- now rewrite Hcl.
        -- split; [|exact I]. rewrite Hhist. eauto.
    + exists []. simpl. rewrite Hstop. simpl. now rewrite app_nil_r.
Qed.

Lemma conclude_client b user_message last :
  client (fst (conclude b user_message last)) = client b.
Proof.
  unfold conclude. simpl. destruct (logger b) as [lg|]; [|reflexivity].
  now destruct (log_message lg _ _ _ _ _) as [lg' [u|e]].
Qed.

(** C5, as stated, fails: with a retention bound of one turn, the
    continuation call of the first iteration sends three turns, which a
    pruning pass would have cut down to one. *)
Lemma continuation_call_not_pruned :
  max_history (study_bot 1 None) = 1%Z /\
  nth_error (requests (client (fst (chat 5 (study_bot 1 None) "John 3:16?")))) 1
    = Some second_transcript /\
  length second_transcript = 3 /\
  prune 1 second_transcript <> second_transcript.
Proof.
  split; [reflexivity|].
  split; [vm_compute; reflexivity|].
  split; [reflexivity|].
  vm_compute. discriminate.
Qed.

(** C5 (amended): the pruning pass is applied once per turn, right after
    the user message is appended and before the initial model call, which
    sends the pruned history; every continuation call inside the tool-use
    loop sends the previous transcript extended by the assistant turn and
    the batch of results, without a pruning pass. *)
Theorem pruned_once_per_turn (fuel : nat) (b : BibleChatbot) (user_message : string) :
  let first := prune (max_history b)
                 (conversation_history b ++
                    [{| role := "user"; content := Text user_message |}]) in
  exists later,
    requests (client (fst (chat fuel b user_message)))
      = requests (client b) ++ first :: later /\
    chain first later.
Proof.
  intros first. unfold chat, dialogue.
  rewrite MCPFacts.get_tools_for_claude_cached.
  set (b2 := _prune_history (history_append _ b)).
  unfold messages_create.
  destruct (create (client b2) (api_calls (client b2)) (_tools (mcp_client b2))
              (conversation_history b2)) as [response|e].
  - match goal with
    | |- context [tool_use_loop fuel ?b3 ?tools response] =>
        destruct (tool_use_loop_requests fuel b3 tools response)
          as (later & Hreq & Hchain);
        destruct (tool_use_loop fuel b3 tools response) as [b4 [[last|e]|]]
    end; simpl in Hreq, Hchain; exists later;
      (split; [|exact Hchain]);
      rewrite ?conclude_client; simpl; rewrite Hreq, <- app_assoc; reflexivity.
  - exists []. split; [reflexivity|exact I].
Qed.

(** *** The turn log *)

(** C8, as stated, fails: the same turn returns its answer when the log
    file can be written and raises the write error when it cannot. *)
Lemma log_failure_reaches_caller :
  snd (chat 5 (study_bot 10 (Some (new_logger "json" working_disk))) "John 3:16?")
    = Returned "John 3:16 - For God so loved the world" /\
  snd (chat 5 (study_bot 10 (Some (new_logger "json" failing_disk))) "John 3:16?")
    = Raised (OSError "cannot open log file") /\
  (forall text,
     snd (chat 5 (study_bot 10 (Some (new_logger "json" failing_disk))) "John 3:16?")
     <> Returned text).
Proof.
  split; [vm_compute; reflexivity|]. split; [vm_compute; reflexivity|].
  intros text. vm_compute. discriminate.
Qed.

(** C8 (amended): a failure while writing the turn's log record propagates
    to the caller of [chat]: once the model has given its final response,
    if the write raises then [chat] raises that same exception instead of
    returning the answer, the answer being already appended to the history;
    [chat] returns the answer when logging is disabled or the write
    succeeds. *)
Theorem log_failure_propagates (fuel : nat) (b b4 : BibleChatbot)
    (user_message : string) (last : Response) :
  dialogue fuel b user_message = (b4, Some (Ok last)) ->
  let answer := final_text_of (resp_content last) in
  conversation_history (fst (chat fuel b user_message))
    = conversation_history b4 ++ [{| role := "assistant"; content := Text answer |}] /\
  (logger b4 = None -> snd (chat fuel b user_message) = Returned answer) /\
  (forall lg,
     logger b4 = Some lg ->
     match snd (log_message lg user_message answer
                  (current_tool_calls b4) (current_tool_results b4) None) with
     | Raise e => snd (chat fuel b user_message) = Raised e
     | Ok _ => snd (chat fuel b user_message) = Returned answer
     end).
Proof.
  intros Hd answer. unfold chat. rewrite Hd. unfold conclude. simpl.
  fold answer. split; [|split].
  - destruct (logger b4) as [lg|]; [|reflexivity].
    now destruct (log_message lg _ _ _ _ _) as [lg' [u|e]].
  - now intros ->.
  - intros lg ->.
    now destruct (log_message lg _ _ _ _ _) as [lg' [u|e]].
Qed.

Lemma log_failure_propagates_witness :
  snd (chat 5 (study_bot 10 (Some (new_logger "json" failing_disk))) "John 3:16?")
    = Raised (OSError "cannot open log file").
Proof.
  exact (proj2 (proj2
    (log_failure_propagates 5
       (study_bot 10 (Some (new_logger "json" failing_disk)))
       (fst (dialogue 5 (study_bot 10 (Some (new_logger "json" failing_disk)))
               "John 3:16?"))
       "John 3:16?" final_answer ltac:(vm_compute; reflexivity)))
    (new_logger "json" failing_disk) ltac:(vm_compute; reflexivity)).
Defined.

(** C9 fails on the code.  In a turn with two tool-use iterations (calls
    toolu_1 and toolu_2, then toolu_3) the log record holds the call and the
    outcome of the last iteration only; and a following turn that uses no
    tool is logged with the calls of the turn before it. *)
Theorem log_record_keeps_last_iteration :
  let b0 := study_bot 10 (Some (new_logger "json" working_disk)) in
  let b1 := fst (chat 5 b0 "John 3:16?") in
  let b2 := fst (chat 5 b1 "Thank you") in
  snd (chat 5 b0 "John 3:16?") = Returned "John 3:16 - For God so loved the world" /\
  issued_in (conversation_history b1) = ["toolu_1"; "toolu_2"; "toolu_3"] /\
  option_map (fun lg => map (fun e => map tci_id (le_tool_calls e)) (conversations lg))
             (logger b1) = Some [["toolu_3"]] /\
  option_map (fun lg => map (fun e => map tri_tool_use_id (le_tool_results e))
                            (conversations lg))
             (logger b1) = Some [["toolu_3"]] /\
  issued_in (drop 6 (conversation_history b2)) = [] /\
  option_map (fun lg => map (fun e => map tci_id (le_tool_calls e)) (conversations lg))
             (logger b2) = Some [["toolu_3"]; ["toolu_3"]].
Proof. vm_compute. repeat split. Qed.

End ChatbotFacts.

(** * Further properties *)

(** ** The tool-server client, continued *)

Module MCPMore.

Import MCP Resources Scenario MoreScenario.



(** X2: [read_resource] raises [RuntimeError("Not connected")] and leaves
    the client untouched when there is no session; with a session it passes
    a remote exception on unchanged, and on success returns the line-break
    join of the contents that have a text, which is the empty string when
    none has. *)
Theorem read_resource_contract (c : FHLBibleClient) (srv : ResourceServer)
    (uri : string) :
  (session c = None ->
     read_resource c srv uri = (c, Raise (RuntimeError "Not connected"))) /\
  (forall s, session c = Some s ->
     match on_read_resource srv (request_id s) uri with
     | Raise e => snd (read_resource c srv uri) = Raise e
     | Ok contents =>
         snd (read_resource c srv uri)
           = Ok (join newline (omap resource_text contents)) /\
         ((forall x, In x contents -> resource_text x = None) ->
            snd (read_resource c srv uri) = Ok "")
     end).
Proof.
  split.
  - intros Hs. unfold read_resource. now rewrite Hs.
  - intros s Hs. unfold read_resource. rewrite Hs. simpl.
    destruct (on_read_resource srv (request_id s) uri) as [contents|e];
      [|reflexivity].
    assert (E : match contents with
                | [] => ""
                | _ => join newline (omap resource_text contents)
                end = join newline (omap resource_text contents))
      by (destruct contents; reflexivity).
    rewrite E. split; [reflexivity|].
    intros Hnone.
    assert (Hnil : omap resource_text contents = []).
    { clear E. induction contents as [|x l IH]; [reflexivity|]. simpl.
      rewrite (Hnone x (or_introl eq_refl)). apply IH.
      intros y Hy. apply Hnone. now right. }
    now rewrite Hnil.
Qed.

Lemma read_resource_contract_witness :
  read_resource MCP.init psalm_server "bible://ps/23"
    = (MCP.init, Raise (RuntimeError "Not connected")) /\
  snd (read_resource connected psalm_server "bible://ps/23")
    = Ok (join newline ["The LORD is my shepherd"; "I shall not want"]).
Proof.
  split.
  - exact (proj1 (read_resource_contract MCP.init psalm_server "bible://ps/23")
             eq_refl).
  - exact (proj1 (proj2 (read_resource_contract connected psalm_server
                           "bible://ps/23") two_texts eq_refl)).
Defined.

(** X3: [list_resources] raises [RuntimeError("Not connected")] without a
    session; with one it returns the server's resources unchanged, in the
    server's order, or passes the remote exception on. *)
Theorem list_resources_contract (c : FHLBibleClient) (srv : ResourceServer) :
  (session c = None ->
     list_resources c srv = (c, Raise (RuntimeError "Not connected"))) /\
  (forall s, session c = Some s ->
     snd (list_resources c srv) = on_list_resources srv (request_id s)).
Proof.
  split.
  - intros Hs. unfold list_resources. now rewrite Hs.
  - intros s Hs. unfold list_resources. rewrite Hs. simpl.
    destruct (on_list_resources srv (request_id s)) as [resources|e];
      [|reflexivity].
    f_equal. induction resources as [|[u n d] l IH]; simpl.
    + reflexivity.
    + now rewrite IH.
Qed.

Lemma list_resources_contract_witness :
  list_resources MCP.init psalm_server
    = (MCP.init, Raise (RuntimeError "Not connected")) /\
  snd (list_resources connected psalm_server)
    = Ok [ {| res_uri := "bible://ps/23"; res_name := "Psalm 23";
              res_description := None |} ].
Proof.
  split.
  - exact (proj1 (list_resources_contract MCP.init psalm_server) eq_refl).
  - exact (proj2 (list_resources_contract connected psalm_server)
             two_texts eq_refl).
Defined.

End MCPMore.

(** ** The chatbot, continued *)

Module ChatbotMore.

Import MCP Chatbot Notions Scenario MoreNotions MoreScenario.
Local Open Scope list_scope.

(** *** Pruning *)

(** X4: pruning twice is pruning once, and pruning never removes the most
    recent turn. *)
Theorem prune_stable (max_turns : Z) (h : list Message) :
  prune max_turns (prune max_turns h) = prune max_turns h /\
  last (prune max_turns h) = last h.
Proof.
  destruct (Z_lt_le_dec 0 max_turns) as [H0|H0];
    [destruct (Z_lt_le_dec max_turns (Z.of_nat (length h))) as [H1|H1]|].
  - rewrite (ChatbotFacts.prune_long max_turns h H0 H1). split.
    + apply ChatbotFacts.prune_short. right. rewrite length_drop. lia.
    + transitivity (last (take (length h - Z.to_nat max_turns) h ++
                          drop (length h - Z.to_nat max_turns) h));
        [|now rewrite take_drop].
      rewrite last_app.
      destruct (last (drop (length h - Z.to_nat max_turns) h)) eqn:E;
        [reflexivity|].
      apply last_None in E.
      apply (f_equal (@length Message)) in E.
      rewrite length_drop in E. simpl in E. exfalso. lia.
  - rewrite !(ChatbotFacts.prune_short max_turns h) by lia. auto.
  - rewrite !(ChatbotFacts.prune_short max_turns h) by lia. auto.
Qed.

(** *** The final text *)

Lemma concat_empty_cons (x : string) (l : list string) :
  String.concat "" (x :: l) = (x ++ String.concat "" l)%string.
Proof.
  destruct l as [|y l]; simpl; [|reflexivity].
  induction x as [|a x IH]; simpl; [reflexivity|]. now rewrite <- IH.
Qed.

Lemma append_assoc (x y z : string) :
  ((x ++ y) ++ z = x ++ (y ++ z))%string.
Proof. induction x as [|a x IH]; simpl; [reflexivity|]. now rewrite IH. Qed.

Lemma final_text_fold (content : list ContentBlock) (acc : string) :
  fold_left (fun acc block =>
               match block_text block with
               | Some t => (acc ++ t)%string
               | None => acc
               end) content acc
  = (acc ++ String.concat "" (omap block_text content))%string.
Proof.
  revert acc. induction content as [|b content IH]; intros acc; simpl.
  - induction acc as [|a acc IHa]; simpl; [reflexivity|]. now rewrite <- IHa.
  - rewrite IH. destruct (block_text b) as [t|]; [|reflexivity].
    change (omap block_text content) with (omap block_text content).
    rewrite concat_empty_cons. apply append_assoc.
Qed.

(** X5: the answer [chat] builds from a response is the text of its text
    blocks put end to end, in order; tool-use and other blocks contribute
    nothing, and the answer of two block lists put together is the two
    answers put together. *)
Theorem final_text_is_concatenation (content more : list ContentBlock) :
  final_text_of content = String.concat "" (omap block_text content) /\
  final_text_of (content ++ more)
    = (final_text_of content ++ final_text_of more)%string.
Proof.
  assert (E : forall c, final_text_of c = String.concat "" (omap block_text c)).
  { intros c. unfold final_text_of. now rewrite final_text_fold. }
  split; [apply E|].
  unfold final_text_of at 1. rewrite fold_left_app.
  fold (final_text_of content). rewrite final_text_fold.
  now rewrite <- E.
Qed.

(** *** What a turn leaves behind *)

(** The tool-use loop only appends to the history and never touches the
    logger, the retention bound or the behaviour of the endpoint. *)
Lemma tool_use_loop_frame fuel :
  forall b tools response,
  logger (fst (tool_use_loop fuel b tools response)) = logger b /\
  max_history (fst (tool_use_loop fuel b tools response)) = max_history b /\
  create (client (fst (tool_use_loop fuel b tools response))) = create (client b) /\
  exists more,
    conversation_history (fst (tool_use_loop fuel b tools response))
    = conversation_history b ++ more.
Proof.
  induction fuel as [|fuel IH]; intros b tools response.
  - simpl. destruct (String.eqb _ _); simpl;
      (repeat split; try reflexivity; exists []; now rewrite app_nil_r).
  - destruct (String.eqb (stop_reason response) "tool_use") eqn:Hstop.
    + apply String.eqb_eq in Hstop.
      destruct (ChatbotFacts.tool_use_iteration fuel b tools response Hstop)
        as (b4 & -> & Hhist & Hcl & Hlg & Hmax).
      unfold continue_with, messages_create.
      destruct (create (client b4) (api_calls (client b4)) tools
                  (conversation_history b4)) as [response'|e].
      * match goal with
        | |- context [tool_use_loop fuel ?b5 tools response'] =>
            destruct (IH b5 tools response') as (H1 & H2 & H3 & more & H4)
        end.
        rewrite H1, H2, H3, H4. simpl. rewrite Hlg, Hmax, Hcl, Hhist.
        repeat split. eexists. now rewrite <- app_assoc.
      * simpl. rewrite Hlg, Hmax, Hcl, Hhist. repeat split. now eexists.
    + simpl. rewrite Hstop. simpl.
      repeat split. exists []. now rewrite app_nil_r.
Qed.



(** A response that does not ask for tools ends the loop at once, whatever
    the fuel. *)
Lemma tool_use_loop_final fuel b tools response :
  stop_reason response <> "tool_use" ->
  tool_use_loop fuel b tools response = (b, Some (Ok response)).
Proof.
  intros Hstop. apply String.eqb_neq in Hstop.
  destruct fuel; simpl; now rewrite Hstop.
Qed.

Lemma dialogue_requests fuel b user_message :
  exists later,
    requests (client (fst (dialogue fuel b user_message)))
    = requests (client b) ++
      prune (max_history b)
        (conversation_history b ++
           [{| role := "user"; content := Text user_message |}]) :: later.
Proof.
  unfold dialogue. rewrite MCPFacts.get_tools_for_claude_cached.
  unfold messages_create.
  set (b2 := _prune_history (history_append _ b)).
  destruct (create (client b2) (api_calls (client b2)) (_tools (mcp_client b2))
              (conversation_history b2)) as [response|e].
  - match goal with
    | |- context [tool_use_loop fuel ?b3 ?tools response] =>
        destruct (ChatbotFacts.tool_use_loop_requests fuel b3 tools response)
          as (later & Hreq & _)
    end.
    exists later. rewrite Hreq. simpl. now rewrite <- app_assoc.
  - exists []. reflexivity.
Qed.

Lemma chat_client fuel b user_message :
  client (fst (chat fuel b user_message))
  = client (fst (dialogue fuel b user_message)).
Proof.
  unfold chat. destruct (dialogue fuel b user_message) as [b4 [[last|e]|]];
    simpl; try reflexivity.
  apply ChatbotFacts.conclude_client.
Qed.

Lemma chat_history_prefix fuel b user_message :
  exists more,
    conversation_history (fst (chat fuel b user_message))
    = prune (max_history b)
        (conversation_history b ++
           [{| role := "user"; content := Text user_message |}]) ++ more.
Proof.
  assert (Hd : exists more,
            conversation_history (fst (dialogue fuel b user_message))
            = prune (max_history b)
                (conversation_history b ++
                   [{| role := "user"; content := Text user_message |}]) ++ more).
  { unfold dialogue. rewrite MCPFacts.get_tools_for_claude_cached.
    unfold messages_create.
    set (b2 := _prune_history (history_append _ b)).
    destruct (create (client b2) (api_calls (client b2)) (_tools (mcp_client b2))
                (conversation_history b2)) as [response|e].
    - match goal with
      | |- context [tool_use_loop fuel ?b3 ?tools response] =>
          destruct (tool_use_loop_frame fuel b3 tools response)
            as (_ & _ & _ & more & H4)
      end.
      exists more. exact H4.
    - exists []. simpl. now rewrite app_nil_r. }
  destruct Hd as (more & Hd). unfold chat.
  destruct (dialogue fuel b user_message) as [b4 [[last|e]|]]; simpl in *;
    try (exists more; exact Hd).
  exists (more ++ [{| role := "assistant";
                      content := Text (final_text_of (resp_content last)) |}]).
  rewrite app_assoc, <- Hd.
  unfold conclude. simpl. destruct (logger b4) as [lg|]; [|reflexivity].
  now destruct (log_message lg _ _ _ _ _) as [lg' [u|e]].
Qed.

(** X7: after [clear_history], whatever the retention bound, the next turn
    sends the model a transcript made of the new user message alone, and
    the history it leaves starts with that message: nothing of the cleared
    conversation is sent or kept. *)
Theorem clear_then_chat (fuel : nat) (b : BibleChatbot) (user_message : string) :
  let said := {| role := "user"; content := Text user_message |} in
  (exists later,
     requests (client (fst (chat fuel (clear_history b) user_message)))
     = requests (client b) ++ [said] :: later) /\
  (exists more,
     conversation_history (fst (chat fuel (clear_history b) user_message))
     = said :: more).
Proof.
  intros said.
  assert (Hp : prune (max_history (clear_history b))
                 (conversation_history (clear_history b) ++ [said]) = [said]).
  { simpl. apply ChatbotFacts.prune_short. simpl. lia. }
  split.
  - rewrite chat_client.
    destruct (dialogue_requests fuel (clear_history b) user_message)
      as (later & H).
    exists later. rewrite H. fold said. now rewrite Hp.
  - destruct (chat_history_prefix fuel (clear_history b) user_message)
      as (more & H).
    exists more. rewrite H. fold said. now rewrite Hp.
Qed.

(** Case analysis on the tests [log_message] makes: the two format tests
    and the outcome of each attempt to open a file. *)
Ltac log_cases :=
  repeat (cbn [format conversations log_file_json log_file_text fs_ops fs_ok
               fst snd];
          match goal with
          | |- context [if ?c then _ else _] => destruct c eqn:?
          end);
  cbn [format conversations log_file_json log_file_text fs_ops fs_ok fst snd].

(** Whatever happens to the files, the record is appended to the list held
    in memory. *)
Lemma log_message_conversations lg u a tc tr err :
  conversations (fst (log_message lg u a tc tr err))
  = conversations lg ++ [mkLogEntry u a tc tr err].
Proof.
  unfold log_message, open_file. log_cases; reflexivity.
Qed.

(** X8: a turn the model answers without asking for tools makes exactly
    one model call and no tool call: the tool-server client and the
    per-turn tool lists are left as they were, the history is the pruned
    history followed by the answer, and the answer is returned when logging
    is off. *)
Theorem plain_turn (fuel : nat) (b : BibleChatbot) (user_message : string)
    (r : Response) :
  let first := prune (max_history b)
                 (conversation_history b ++
                    [{| role := "user"; content := Text user_message |}]) in
  let answer := final_text_of (resp_content r) in
  create (client b) (api_calls (client b)) (_tools (mcp_client b)) first = Ok r ->
  stop_reason r <> "tool_use" ->
  let b' := fst (chat fuel b user_message) in
  conversation_history b'
    = first ++ [{| role := "assistant"; content := Text answer |}] /\
  requests (client b') = requests (client b) ++ [first] /\
  api_calls (client b') = S (api_calls (client b)) /\
  mcp_client b' = mcp_client b /\
  current_tool_calls b' = current_tool_calls b /\
  current_tool_results b' = current_tool_results b /\
  (logger b = None -> snd (chat fuel b user_message) = Returned answer).
Proof.
  intros first answer Hr Hstop. unfold chat, dialogue.
  rewrite MCPFacts.get_tools_for_claude_cached. unfold messages_create.
  simpl. fold first. rewrite Hr.
  rewrite (tool_use_loop_final fuel _ _ r Hstop).
  unfold conclude. simpl. fold answer.
  destruct (logger b) as [lg|] eqn:Hlg.
  - destruct (log_message lg _ _ _ _ _) as [lg' [u|e]]; simpl;
      repeat split; discriminate.
  - simpl. repeat split.
Qed.

Lemma plain_turn_witness :
  let b := fst (chat 5 (study_bot 10 None) "John 3:16?") in
  conversation_history (fst (chat 5 b "Thank you"))
    = conversation_history b ++
      [{| role := "user"; content := Text "Thank you" |};
       {| role := "assistant";
          content := Text "John 3:16 - For God so loved the world" |}] /\
  snd (chat 5 b "Thank you") = Returned "John 3:16 - For God so loved the world".
Proof.
  pose proof (plain_turn 5 (fst (chat 5 (study_bot 10 None) "John 3:16?"))
                "Thank you" final_answer
                ltac:(vm_compute; reflexivity)
                ltac:(vm_compute; discriminate)) as H.
  split.
  - etransitivity; [exact (proj1 H)|]. vm_compute. reflexivity.
  - exact (proj2 (proj2 (proj2 (proj2 (proj2 (proj2 H)))))
             ltac:(vm_compute; reflexivity)).
Defined.

(** X9: the log record of a turn answered without tools does not have
    empty tool lists: it carries the tool calls and outcomes the chatbot
    held before the turn, that is those of the last tool-use iteration of
    an earlier turn. *)
Theorem plain_turn_logs_earlier_tools (fuel : nat) (b : BibleChatbot)
    (user_message : string) (r : Response) (lg : ConversationLogger) :
  create (client b) (api_calls (client b)) (_tools (mcp_client b))
    (prune (max_history b)
       (conversation_history b ++
          [{| role := "user"; content := Text user_message |}])) = Ok r ->
  stop_reason r <> "tool_use" ->
  logger b = Some lg ->
  option_map conversations (logger (fst (chat fuel b user_message)))
  = Some (conversations lg ++
          [{| le_user_message := user_message;
              le_assistant_response := final_text_of (resp_content r);
              le_tool_calls := current_tool_calls b;
              le_tool_results := current_tool_results b;
              le_error := None |}]).
Proof.
  intros Hr Hstop Hlg. unfold chat, dialogue.
  rewrite MCPFacts.get_tools_for_claude_cached. unfold messages_create.
  simpl. rewrite Hr.
  rewrite (tool_use_loop_final fuel _ _ r Hstop).
  unfold conclude. simpl. rewrite Hlg.
  pose proof (log_message_conversations lg user_message
                (final_text_of (resp_content r))
                (current_tool_calls b) (current_tool_results b) None) as Hc.
  destruct (log_message lg _ _ _ _ _) as [lg' [u|e]]; simpl in *;
    now rewrite Hc.
Qed.

Lemma plain_turn_logs_earlier_tools_witness :
  let b := fst (chat 5 (study_bot 10 (Some (new_logger "json" working_disk)))
                  "John 3:16?") in
  option_map (fun l => map (fun e => map tci_id (le_tool_calls e)) l)
    (option_map conversations (logger (fst (chat 5 b "Thank you"))))
  = Some [["toolu_3"]; ["toolu_3"]].
Proof.
  intros b.
  rewrite (plain_turn_logs_earlier_tools 5 b "Thank you" final_answer
             (fst (log_message (new_logger "json" working_disk) "John 3:16?"
                     "John 3:16 - For God so loved the world"
                     (current_tool_calls b) (current_tool_results b) None))
             ltac:(vm_compute; reflexivity)
             ltac:(vm_compute; discriminate)
             ltac:(vm_compute; reflexivity)).
  vm_compute. reflexivity.
Defined.

(** *** Bookkeeping of a batch *)

Lemma batch_infos_cons c c1 tc rest :
  (forall k tc', kth_answer c1 k tc' = kth_answer c (S k) tc') ->
  batch_infos c (tc :: rest)
  = tool_result_info tc (kth_answer c 0 tc) :: batch_infos c1 rest.
Proof.
  intros Hshift. unfold batch_infos. simpl. f_equal.
  apply imap_ext. intros k tc' _. simpl. now rewrite Hshift.
Qed.

Lemma execute_tool_start_log b i tc :
  let '(b1, t) := execute_tool_start b i tc in
  current_tool_calls b1 = current_tool_calls b ++ [tool_call_info tc] /\
  (forall k tc', kth_answer (mcp_client b1) k tc'
                 = kth_answer (mcp_client b) (S k) tc') /\
  match t with
  | inl _ =>
      session (mcp_client b) = None /\
      mcp_client b1 = mcp_client b /\
      current_tool_results b1
      = current_tool_results b ++
        [tool_result_info tc (kth_answer (mcp_client b) 0 tc)]
  | inr w =>
      session (mcp_client b) <> None /\
      current_tool_results b1 = current_tool_results b /\
      w_call w = tc /\ w_answer w = kth_answer (mcp_client b) 0 tc
  end.
Proof.
  unfold execute_tool_start, call_tool, kth_answer. simpl.
  destruct (session (mcp_client b)) as [s|] eqn:Hs; simpl.
  - split; [reflexivity|]. split.
    + intros k tc'. now rewrite Nat.add_succ_r.
    + rewrite Nat.add_0_r. auto.
  - split; [reflexivity|]. split.
    + intros k tc'. now rewrite Hs.
    + destruct (mcp_client b); simpl in *; subst; auto.
Qed.

Lemma start_all_log calls :
  forall b i slots b' slots' ws,
  start_all b i calls slots = (b', slots', ws) ->
  current_tool_calls b' = current_tool_calls b ++ map tool_call_info calls /\
  (session (mcp_client b) = None -> ws = [] /\ mcp_client b' = mcp_client b) /\
  exists settled_first,
    current_tool_results b' = current_tool_results b ++ settled_first /\
    (session (mcp_client b) = None ->
       settled_first = batch_infos (mcp_client b) calls) /\
    Permutation
      (settled_first ++
         map (fun w => tool_result_info (w_call w) (w_answer w)) ws)
      (batch_infos (mcp_client b) calls).
Proof.
  induction calls as [|tc rest IH]; intros b i slots b' slots' ws Hrun;
    simpl in Hrun.
  - inversion Hrun; subst. split; [now rewrite app_nil_r|].
    split; [auto|]. exists []. split; [now rewrite app_nil_r|].
    split; [reflexivity|]. reflexivity.
  - pose proof (execute_tool_start_log b i tc) as Hstart.
    destruct (execute_tool_start b i tc) as [b1 t].
    destruct Hstart as (Hcalls & Hshift & Ht).
    rewrite (batch_infos_cons _ _ tc rest Hshift).
    destruct t as [res|w].
    + destruct Ht as (Hnone & Hmcp & Hres).
      destruct (IH b1 (S i) _ b' slots' ws Hrun)
        as (Hc2 & Hd2 & done & Hr2 & Hx2 & Hp2).
      rewrite Hmcp in Hd2, Hx2.
      split; [rewrite Hc2, Hcalls, <- app_assoc; reflexivity|].
      split; [exact Hd2|].
      exists (tool_result_info tc (kth_answer (mcp_client b) 0 tc) :: done).
      split; [rewrite Hr2, Hres, <- app_assoc; reflexivity|].
      split; [intros Hs; rewrite (Hx2 Hs), Hmcp; reflexivity|].
      simpl. now apply perm_skip.
    + destruct (start_all b1 (S i) rest slots) as [[b2 slots2] ws2] eqn:Hrest.
      inversion Hrun; subst.
      destruct Ht as (Hconn & Hres & Hcall & Hans).
      destruct (IH b1 (S i) slots b' slots' ws2 Hrest)
        as (Hc2 & _ & done & Hr2 & _ & Hp2).
      split; [rewrite Hc2, Hcalls, <- app_assoc; reflexivity|].
      split; [intros Hs; contradiction|].
      exists done. split; [rewrite Hr2, Hres; reflexivity|].
      split; [intros Hs; contradiction|].
      simpl. rewrite Hcall, Hans.
      etransitivity; [symmetry; apply Permutation_middle|].
      now apply perm_skip.
Qed.



(** X11: outside a connection scope a batch raises nothing and sends
    nothing: every request gets an error-tagged result whose content is the
    not-connected message, results and logged outcomes are in request
    order, and the tool-server client is unchanged. *)
Theorem disconnected_batch (b : BibleChatbot) (calls : list ToolUse) :
  session (mcp_client b) = None ->
  snd (gather b calls)
    = Some (map (fun tc =>
                   {| tr_type := "tool_result";
                      tr_tool_use_id := tu_id tc;
                      tr_content :=
                        "Error: Not connected. Use 'async with client.connect():'";
                      tr_is_error := true |}) calls) /\
  mcp_client (fst (gather b calls)) = mcp_client b /\
  current_tool_results (fst (gather b calls))
    = current_tool_results b ++
      map (fun tc =>
             {| tri_tool_name := tu_name tc;
                tri_tool_use_id := tu_id tc;
                tri_is_error := true;
                tri_result_length := None;
                tri_error :=
                  Some "Not connected. Use 'async with client.connect():'" |})
          calls.
Proof.
  intros Hs.
  destruct (ChatbotFacts.gather_spec b calls) as (b' & Hg & _).
  split.
  - rewrite Hg. simpl. f_equal. unfold batch_results.
    apply list_eq. intros k. rewrite list_lookup_imap, list_lookup_fmap.
    destruct (calls !! k); [|reflexivity]. simpl.
    unfold kth_answer. now rewrite Hs.
  - clear Hg b'. unfold gather.
    destruct (start_all b 0 calls (replicate (length calls) None))
      as [[b1 slots1] ws] eqn:Hstart.
    destruct (start_all_log calls _ _ _ _ _ _ Hstart)
      as (_ & Hd & done & Hr1 & Hx & _).
    destruct (Hd Hs) as [-> Hm]. simpl. split; [exact Hm|].
    rewrite Hr1, (Hx Hs). f_equal. unfold batch_infos.
    apply list_eq. intros k. rewrite list_lookup_imap, list_lookup_fmap.
    destruct (calls !! k); [|reflexivity]. simpl.
    unfold kth_answer. now rewrite Hs.
Qed.

Lemma disconnected_batch_witness :
  snd (gather (Chatbot.init scripted MCP.init 10 None)
         (tool_use_blocks (resp_content first_request)))
  = Some [ {| tr_type := "tool_result"; tr_tool_use_id := "toolu_1";
              tr_content :=
                "Error: Not connected. Use 'async with client.connect():'";
              tr_is_error := true |};
           {| tr_type := "tool_result"; tr_tool_use_id := "toolu_2";
              tr_content :=
                "Error: Not connected. Use 'async with client.connect():'";
              tr_is_error := true |} ].
Proof.
  exact (proj1 (disconnected_batch (Chatbot.init scripted MCP.init 10 None)
                  (tool_use_blocks (resp_content first_request)) eq_refl)).
Defined.

(** *** How long a turn lasts *)






Lemma final_at_same_create a a' n :
  create a' = create a -> final_at a n -> final_at a' n.
Proof. unfold final_at. intros ->. auto. Qed.

Lemma tool_use_loop_terminates k :
  forall b tools response,
  final_at (client b) (api_calls (client b) + k) ->
  snd (tool_use_loop (S k) b tools response) <> None.
Proof.
  induction k as [|k IH]; intros b tools response Hfinal.
  - destruct (String.eqb (stop_reason response) "tool_use") eqn:Hstop.
    + apply String.eqb_eq in Hstop.
      destruct (ChatbotFacts.tool_use_iteration 0 b tools response Hstop)
        as (b4 & -> & _ & Hcl & _).
      unfold continue_with, messages_create. rewrite Hcl.
      rewrite Nat.add_0_r in Hfinal.
      destruct (create (client b) (api_calls (client b)) tools
                  (conversation_history b4)) as [response'|e] eqn:Hc;
        [|discriminate].
      rewrite (tool_use_loop_final 0 _ _ _ (Hfinal _ _ _ Hc)). discriminate.
    + apply String.eqb_neq in Hstop.
      rewrite (tool_use_loop_final _ _ _ _ Hstop). discriminate.
  - destruct (String.eqb (stop_reason response) "tool_use") eqn:Hstop.
    + apply String.eqb_eq in Hstop.
      destruct (ChatbotFacts.tool_use_iteration (S k) b tools response Hstop)
        as (b4 & -> & _ & Hcl & _).
      unfold continue_with, messages_create. rewrite Hcl.
      destruct (create (client b) (api_calls (client b)) tools
                  (conversation_history b4)) as [response'|e];
        [|discriminate].
      apply IH. simpl.
      apply (final_at_same_create (client b)); [reflexivity|].
      now rewrite <- Nat.add_succ_r.
    + apply String.eqb_neq in Hstop.
      rewrite (tool_use_loop_final _ _ _ _ Hstop). discriminate.
Qed.

(** X13: the loop stops at the first response that does not ask for
    tools: if the [k]-th model call after the initial one can only give
    such a response (or fail), the turn ends within [k] iterations. *)
Theorem chat_terminates (k : nat) (b : BibleChatbot) (user_message : string) :
  final_at (client b) (api_calls (client b) + k) ->
  snd (chat k b user_message) <> Unfinished.
Proof.
  intros Hfinal.
  assert (Hd : snd (dialogue k b user_message) <> None).
  { unfold dialogue. rewrite MCPFacts.get_tools_for_claude_cached.
    unfold messages_create.
    set (b2 := _prune_history (history_append _ b)).
    destruct (create (client b2) (api_calls (client b2)) (_tools (mcp_client b2))
                (conversation_history b2)) as [response|e] eqn:Hc;
      [|discriminate].
    destruct k as [|k].
    - rewrite Nat.add_0_r in Hfinal.
      rewrite (tool_use_loop_final 0 _ _ _ (Hfinal _ _ _ Hc)). discriminate.
    - apply tool_use_loop_terminates. simpl.
      apply (final_at_same_create (client b)); [reflexivity|].
      now rewrite <- Nat.add_succ_r. }
  unfold chat. destruct (dialogue k b user_message) as [b4 [[last|e]|]];
    simpl in *; try discriminate; try contradiction.
  unfold conclude. destruct (logger _) as [lg|]; [|discriminate].
  destruct (log_message lg _ _ _ _ _) as [lg' [u|e]]; discriminate.
Qed.

Lemma chat_terminates_witness :
  snd (chat 2 (study_bot 10 None) "John 3:16?") <> Unfinished.
Proof.
  apply (chat_terminates 2 (study_bot 10 None) "John 3:16?").
  intros tools msgs r. simpl. intros [= <-]. discriminate.
Defined.

Lemma always_tool_use_same_create a a' :
  create a' = create a -> always_tool_use a -> always_tool_use a'.
Proof. unfold always_tool_use. intros ->. auto. Qed.

Lemma tool_use_loop_unbounded fuel :
  forall b tools response,
  always_tool_use (client b) ->
  stop_reason response = "tool_use" ->
  snd (tool_use_loop fuel b tools response) = None /\
  api_calls (client (fst (tool_use_loop fuel b tools response)))
    = api_calls (client b) + fuel /\
  length (conversation_history (fst (tool_use_loop fuel b tools response)))
    = length (conversation_history b) + 2 * fuel.
Proof.
  induction fuel as [|fuel IH]; intros b tools response Hall Hstop.
  - simpl. rewrite Hstop. simpl. repeat split; lia.
  - destruct (ChatbotFacts.tool_use_iteration fuel b tools response Hstop)
      as (b4 & -> & Hhist & Hcl & _).
    unfold continue_with, messages_create.
    destruct (Hall (api_calls (client b4)) tools (conversation_history b4))
      as (r & Hr & Hrs).
    rewrite Hcl in Hr |- *. rewrite Hr.
    match goal with
    | |- context [tool_use_loop fuel ?b5 tools r] =>
        destruct (IH b5 tools r
                    (always_tool_use_same_create (client b) _ eq_refl Hall) Hrs)
          as (H1 & H2 & H3)
    end.
    rewrite H1, H2, H3. simpl. rewrite Hhist, length_app. simpl.
    repeat split; lia.
Qed.

(** X14: the tool-use loop has no bound of its own: against an endpoint
    that asks for tools at every call, a turn is still running after any
    number of iterations, having made one model call more than iterations
    and grown the history by two turns per iteration, whatever the
    retention bound. *)
Theorem chat_unbounded (fuel : nat) (b : BibleChatbot) (user_message : string) :
  always_tool_use (client b) ->
  snd (chat fuel b user_message) = Unfinished /\
  api_calls (client (fst (chat fuel b user_message)))
    = api_calls (client b) + S fuel /\
  length (conversation_history (fst (chat fuel b user_message)))
    = length (prune (max_history b)
                (conversation_history b ++
                   [{| role := "user"; content := Text user_message |}]))
      + 2 * fuel.
Proof.
  intros Hall. unfold chat, dialogue.
  rewrite MCPFacts.get_tools_for_claude_cached. unfold messages_create.
  set (b2 := _prune_history (history_append _ b)).
  destruct (Hall (api_calls (client b2)) (_tools (mcp_client b2))
              (conversation_history b2)) as (r & Hr & Hrs).
  change (create (client b2)) with (create (client b)). rewrite Hr.
  match goal with
  | |- context [tool_use_loop fuel ?b3 ?tools r] =>
      destruct (tool_use_loop_unbounded fuel b3 tools r
                  (always_tool_use_same_create (client b) _ eq_refl Hall) Hrs)
        as (H1 & H2 & H3);
      destruct (tool_use_loop fuel b3 tools r) as [b4 looped]
  end.
  simpl in H1, H2, H3. subst looped. simpl.
  rewrite H2, H3. simpl. split; [reflexivity|]. split; [lia|reflexivity].
Qed.

Lemma chat_unbounded_witness :
  snd (chat 3 (Chatbot.init insatiable MCP.init 10 None) "John 3:16?")
    = Unfinished /\
  api_calls (client (fst (chat 3 (Chatbot.init insatiable MCP.init 10 None)
                            "John 3:16?"))) = 4.
Proof.
  pose proof (chat_unbounded 3 (Chatbot.init insatiable MCP.init 10 None)
                "John 3:16?") as H.
  assert (Hall : always_tool_use
                   (client (Chatbot.init insatiable MCP.init 10 None))).
  { intros n tools msgs. exists first_request. split; reflexivity. }
  split; [exact (proj1 (H Hall))|exact (proj1 (proj2 (H Hall)))].
Defined.

(** *** The log files *)




(** X16: when the JSON form is enabled and its file can be opened, the
    file is rewritten with every record held in memory, the new one last,
    whatever it held before: records whose own write had failed are
    included. *)
Theorem json_file_rewritten_in_full (lg : ConversationLogger)
    (u a : string) (tc : list ToolCallInfo) (tr : list ToolResultInfo)
    (err : option string) :
  format_in (format lg) ["json"; "both"] = true ->
  fs_ok lg (fs_ops lg) = true ->
  log_file_json (fst (log_message lg u a tc tr err))
  = conversations lg ++ [mkLogEntry u a tc tr err].
Proof.
  intros Hj Hok. unfold log_message, open_file.
  cbn [format conversations log_file_json log_file_text fs_ops fs_ok].
  rewrite Hj, Hok. log_cases; reflexivity.
Qed.

Lemma json_file_rewritten_in_full_witness :
  let lg1 := log_all (new_logger "json" flaky_disk) [first_record] in
  log_file_json lg1 = [] /\
  log_file_json (fst (log_message lg1 "Thank you" "You are welcome" [] [] None))
  = [first_record; second_record].
Proof.
  intros lg1. split; [reflexivity|].
  exact (json_file_rewritten_in_full lg1 "Thank you" "You are welcome" [] [] None
           eq_refl eq_refl).
Defined.



Lemma format_in_none f :
  format_in f ["json"; "text"; "both"] = false ->
  format_in f ["json"; "both"] = false /\
  format_in f ["text"; "both"] = false.
Proof.
  unfold format_in. simpl.
  destruct (String.eqb f "json"), (String.eqb f "text"), (String.eqb f "both");
    simpl; auto; discriminate.
Qed.

(** X18: a form that is not enabled is never written.  With a format other
    than json or both the JSON file is left alone, with a format other than
    text or both the text file is left alone, and with a format that is
    none of the three [log_message] touches no file and cannot raise. *)
Theorem disabled_forms_not_written (lg : ConversationLogger)
    (u a : string) (tc : list ToolCallInfo) (tr : list ToolResultInfo)
    (err : option string) :
  let lg' := fst (log_message lg u a tc tr err) in
  (format_in (format lg) ["json"; "both"] = false ->
     log_file_json lg' = log_file_json lg) /\
  (format_in (format lg) ["text"; "both"] = false ->
     log_file_text lg' = log_file_text lg) /\
  (format_in (format lg) ["json"; "text"; "both"] = false ->
     snd (log_message lg u a tc tr err) = Ok tt /\ fs_ops lg' = fs_ops lg).
Proof.
  cbn zeta. split; [|split].
  - intros Hj. unfold log_message, open_file.
    cbn [format conversations log_file_json log_file_text fs_ops fs_ok].
    rewrite Hj. log_cases; reflexivity.
  - intros Ht. unfold log_message, open_file.
    cbn [format conversations log_file_json log_file_text fs_ops fs_ok].
    destruct (format_in (format lg) ["json"; "both"]);
      [destruct (fs_ok lg (fs_ops lg))|];
      cbn [format conversations log_file_json log_file_text fs_ops fs_ok fst];
      try rewrite Ht; reflexivity.
  - intros Hnone. destruct (format_in_none _ Hnone) as [Hj Ht].
    unfold log_message, open_file.
    cbn [format conversations log_file_json log_file_text fs_ops fs_ok].
    rewrite Hj. cbn [format conversations log_file_json log_file_text fs_ops
                     fs_ok].
    rewrite Ht. split; reflexivity.
Qed.

Lemma disabled_forms_not_written_witness :
  snd (log_message (new_logger "xml" failing_disk) "John 3:16?" "" [] [] None)
    = Ok tt /\
  fs_ops (fst (log_message (new_logger "xml" failing_disk) "John 3:16?" ""
                 [] [] None)) = 0.
Proof.
  exact (proj2 (proj2 (disabled_forms_not_written
                         (new_logger "xml" failing_disk)
                         "John 3:16?" "" [] [] None)) eq_refl).
Defined.

(** X19: the JSON form is written first, and when opening its file fails
    [log_message] raises at once: the text file is not attempted (one
    attempt on the file system in all) and misses the record, even if it
    could have been written. *)
Theorem json_failure_skips_text (lg : ConversationLogger)
    (u a : string) (tc : list ToolCallInfo) (tr : list ToolResultInfo)
    (err : option string) :
  format_in (format lg) ["json"; "both"] = true ->
  fs_ok lg (fs_ops lg) = false ->
  let lg' := fst (log_message lg u a tc tr err) in
  (exists e, snd (log_message lg u a tc tr err) = Raise e) /\
  fs_ops lg' = S (fs_ops lg) /\
  log_file_text lg' = log_file_text lg /\
  log_file_json lg' = log_file_json lg.
Proof.
  intros Hj Hok. unfold log_message, open_file.
  cbn [format conversations log_file_json log_file_text fs_ops fs_ok].
  rewrite Hj, Hok. cbn. eauto.
Qed.

Lemma json_failure_skips_text_witness :
  let lg' := fst (log_message (new_logger "both" flaky_disk)
                    "John 3:16?" "For God so loved the world" [] [] None) in
  (exists e, snd (log_message (new_logger "both" flaky_disk)
                    "John 3:16?" "For God so loved the world" [] [] None)
             = Raise e) /\
  fs_ops lg' = 1 /\
  log_file_text lg' = [] /\
  log_file_json lg' = [].
Proof.
  exact (json_failure_skips_text (new_logger "both" flaky_disk)
           "John 3:16?" "For God so loved the world" [] [] None
           eq_refl eq_refl).
Defined.



End ChatbotMore.

(** ** The interactive session *)

Module ConsoleFacts.

Import MCP Chatbot Notions Scenario MoreNotions MoreScenario Console.
Local Open Scope list_scope.

Section Loop.

Variables strip lower : string -> string.

(** X20: the loop stops at the first line that reads [quit] once trimmed
    and lower-cased: the lines after it are never read, and a session that
    starts with it leaves the chatbot and the count as they were. *)
Theorem quit_ends_session (fuel : nat) (b : BibleChatbot) (n : nat)
    (before after : list string) (q : string) :
  strip q <> "" ->
  lower (strip q) = "quit" ->
  repl strip lower fuel b n (before ++ q :: after)
    = repl strip lower fuel b n (before ++ [q]) /\
  repl strip lower fuel b n (q :: after) = (b, n, Ended).
Proof.
  intros Hne Hq. apply String.eqb_neq in Hne.
  assert (Hstop : forall b n rest, repl strip lower fuel b n (q :: rest)
                                   = (b, n, Ended)).
  { intros b0 n0 rest. simpl. rewrite Hne, Hq. reflexivity. }
  split; [|apply Hstop].
  revert b n. induction before as [|line before IH]; intros b n.
  - simpl app. now rewrite !Hstop.
  - simpl.
    destruct (String.eqb (strip line) ""); [apply IH|].
    destruct (String.eqb (lower (strip line)) "quit"); [reflexivity|].
    destruct (String.eqb (lower (strip line)) "clear"); [apply IH|].
    destruct (chat fuel b (strip line)) as [b1 [t|e|]];
      [apply IH| |reflexivity].
    destruct (logger b1) as [lg|]; [|apply IH].
    destruct (log_message lg _ _ _ _ _) as [lg' [u|e']];
      [apply IH|reflexivity].
Qed.



(** X23: a turn that raises is not counted, and with logging enabled it is
    recorded with an empty answer, no tool call, and the message of the
    exception as its error; if writing that record fails the exception
    leaves the loop. *)
Theorem failed_turn_recorded (fuel : nat) (b b1 : BibleChatbot) (n : nat)
    (line : string) (e : exn) (lg : ConversationLogger) :
  strip line <> "" ->
  lower (strip line) <> "quit" ->
  lower (strip line) <> "clear" ->
  chat fuel b (strip line) = (b1, Raised e) ->
  logger b1 = Some lg ->
  let '(b', count, ending) := repl strip lower fuel b n [line] in
  count = n /\
  option_map conversations (logger b')
  = Some (conversations lg ++
          [{| le_user_message := strip line;
              le_assistant_response := "";
              le_tool_calls := [];
              le_tool_results := [];
              le_error := Some (str e) |}]) /\
  match snd (log_message lg (strip line) "" [] [] (Some (str e))) with
  | Ok _ => ending = Ended
  | Raise e' => ending = Crashed e'
  end.
Proof.
  intros H1 H2 H3 Hchat Hlg.
  apply String.eqb_neq in H1, H2, H3.
  simpl. rewrite H1, H2, H3, Hchat, Hlg.
  pose proof (ChatbotMore.log_message_conversations lg (strip line) "" [] []
                (Some (str e))) as Hc.
  destruct (log_message lg _ _ _ _ _) as [lg' [u|e']]; simpl in *;
    rewrite Hc; auto.
Qed.

(** X24: when the connection cannot be established [main] raises before
    reading any line: no message is counted and the chatbot has sent
    nothing to the model; and whenever [main] ends normally the session of
    the tool-server client has been reset. *)
Theorem main_connection_scope (fuel : nat) (b : BibleChatbot) (srv : Server)
    (lines : list string) :
  (forall e, snd (connect_enter (mcp_client b) srv) = Raise e ->
     snd (main strip lower fuel b srv lines) = Crashed e /\
     snd (fst (main strip lower fuel b srv lines)) = 0 /\
     client (fst (fst (main strip lower fuel b srv lines))) = client b /\
     conversation_history (fst (fst (main strip lower fuel b srv lines)))
       = conversation_history b) /\
  (snd (main strip lower fuel b srv lines) = Ended ->
     session (mcp_client (fst (fst (main strip lower fuel b srv lines)))) = None).
Proof.
  unfold main. destruct (connect_enter (mcp_client b) srv) as [c1 [u|e0]].
  - split; [intros e; discriminate|].
    destruct (repl strip lower fuel (set_mcp_client c1 b) 0 lines)
      as [[b1 count] ending].
    destruct ending; simpl; try discriminate.
    destruct (logger b1) as [lg|]; [|reflexivity].
    destruct (Console.log_summary lg count) as [lg' [s|e]]; simpl;
      [reflexivity|discriminate].
  - split; [|simpl; discriminate].
    intros e [= ->]. simpl. auto.
Qed.

End Loop.

Lemma quit_ends_session_witness :
  repl as_typed as_typed 5 (study_bot 10 None) 0 ["quit"; "John 3:16?"]
  = (study_bot 10 None, 0, Ended).
Proof.
  refine (proj2 (quit_ends_session as_typed as_typed 5 (study_bot 10 None) 0
                   [] ["John 3:16?"] "quit" _ eq_refl)).
  discriminate.
Defined.


Lemma failed_turn_recorded_witness :
  let '(b', count, ending) :=
    repl as_typed as_typed 5
      (Chatbot.init unreachable MCP.init 10
         (Some (new_logger "json" working_disk))) 0 ["John 3:16?"] in
  count = 0 /\
  option_map conversations (logger b')
  = Some [ {| le_user_message := "John 3:16?";
              le_assistant_response := "";
              le_tool_calls := [];
              le_tool_results := [];
              le_error := Some "overloaded" |} ] /\
  ending = Ended.
Proof.
  exact (failed_turn_recorded as_typed as_typed 5
           (Chatbot.init unreachable MCP.init 10
              (Some (new_logger "json" working_disk)))
           (fst (chat 5 (Chatbot.init unreachable MCP.init 10
                           (Some (new_logger "json" working_disk)))
                   "John 3:16?"))
           0 "John 3:16?" (APIError "overloaded")
           (new_logger "json" working_disk)
           ltac:(discriminate) ltac:(discriminate) ltac:(discriminate)
           eq_refl eq_refl).
Defined.

Lemma main_connection_scope_witness :
  snd (main as_typed as_typed 5 (study_bot 10 None) no_listing ["John 3:16?"])
    = Crashed (RemoteError "list_tools timed out") /\
  session (mcp_client (fst (fst (main as_typed as_typed 5 (study_bot 10 None)
                                   bible_server ["quit"])))) = None.
Proof.
  split.
  - exact (proj1 (proj1 (main_connection_scope as_typed as_typed 5
                           (study_bot 10 None) no_listing ["John 3:16?"])
                    (RemoteError "list_tools timed out") eq_refl)).
  - exact (proj2 (main_connection_scope as_typed as_typed 5
                    (study_bot 10 None) bible_server ["quit"]) eq_refl).
Defined.

End ConsoleFacts.
